(** * Credential cache of the Tolino uploader, and the boolean settings parser

    A shallow embedding of [env.py] (the [string_to_bool] parser and the
    settings that use it) and of the credential-cache part of
    [tolino_uploader.py] ([TolinoUploader.__init__], [_load_encryption_key],
    [_load_credentials], [save_credentials], [has_credentials]).

    Python exceptions are explicit outcomes, [try: ... except Exception:] is a
    handler combinator, and the file system, the entropy source and the logger
    are fields of an explicit world that every operation threads through.
    The [cryptography.fernet] and [json] libraries are not part of the
    repository: they enter as an interface ([FernetLib], [CodecLib]) whose
    laws are assumed only by the theorems that need them. *)

From Stdlib Require Import ZArith String Ascii List Lia.
From Stdlib Require Import Strings.Byte.
From Stdlib Require Import Floats.SpecFloat.
From stdpp Require Import gmap strings list.

Local Set Warnings "-register-all".
Local Open Scope string_scope.

(** ** env.py *)

Module Env.

(** [str.lower()].  Settings are modelled as byte strings; lower-casing acts
    on the letters [A]..[Z] and leaves every other byte alone. *)
Definition lower_char (c : ascii) : ascii :=
  let n := nat_of_ascii c in
  if (65 <=? n)%nat && (n <=? 90)%nat then ascii_of_nat (n + 32) else c.

Fixpoint lower (s : string) : string :=
  match s with
  | EmptyString => EmptyString
  | String c s' => String (lower_char c) (lower s')
  end.

(** The literal list of line 5. *)
Definition true_words : list string := ["true"; "yes"; "1"; "y"].

(** [def string_to_bool(s): return s.lower() in ["true", "yes", "1", "y"]] *)
Definition string_to_bool (s : string) : bool :=
  bool_decide (lower s ∈ true_words).

(** [os.getenv(name, default)] over an explicit environment. *)
Definition getenv (env : gmap string string) (name dflt : string) : string :=
  default dflt (env !! name).

(** Line 51: [ENABLE_TOLINO = string_to_bool(os.getenv("ENABLE_TOLINO", "true"))]. *)
Definition ENABLE_TOLINO (env : gmap string string) : bool :=
  string_to_bool (getenv env "ENABLE_TOLINO" "true").

Definition USE_CF_BYPASS (env : gmap string string) : bool :=
  string_to_bool (getenv env "USE_CF_BYPASS" "true").

Definition DEBUG (env : gmap string string) : bool :=
  string_to_bool (getenv env "DEBUG" "False").

End Env.


(** ** Python values and exceptions *)

Definition bytes := list Byte.byte.
Definition path := string.

(** The values [json.loads] can produce.  [self._credentials] is annotated
    [Dict[str, str]], but Python stores whatever [json.loads] returns, so the
    field holds an arbitrary value of this type. *)
Inductive pyobj :=
| PyNone
| PyBool (b : bool)
| PyInt (n : Z)
| PyFloat (f : spec_float)
| PyStr (s : string)
| PyList (l : list pyobj)
| PyDict (d : gmap string pyobj).

(** Python truth value testing, as [bool(v)] and [and] use it. *)
Definition truthy (v : pyobj) : bool :=
  match v with
  | PyNone => false
  | PyBool b => b
  | PyInt n => negb (n =? 0)%Z
  | PyFloat f => match f with S754_zero _ => false | _ => true end
  | PyStr s => match s with EmptyString => false | String _ _ => true end
  | PyList l => match l with [] => false | _ :: _ => true end
  | PyDict d => negb (Nat.eqb (size d) 0)
  end.

(** Truth value of an [Optional[bytes]]: [None] and [b''] are false. *)
Definition bytes_truthy (k : option bytes) : bool :=
  match k with
  | Some (_ :: _) => true
  | _ => false
  end.

(** The exceptions the modelled primitives raise; all of them are subclasses
    of [Exception]. *)
Inductive exn :=
| FileNotFoundError
| IsADirectoryError
| PermissionError
| NoSpaceError          (* OSError, ENOSPC *)
| NotOpenError          (* ValueError: I/O operation on closed file *)
| EntropyError          (* os.urandom failing *)
| TypeError
| ValueError
| InvalidToken
| UnicodeError
| JSONDecodeError
| AttributeError.

Inductive outcome (A : Type) :=
| Returns (a : A)
| Raises (e : exn).
Arguments Returns {A} a.
Arguments Raises {A} e.

(** [v.get(k)]: defined on dicts only, [None] when the key is missing. *)
Definition py_get (v : pyobj) (k : string) : outcome pyobj :=
  match v with
  | PyDict d => Returns (default PyNone (d !! k))
  | _ => Raises AttributeError
  end.

(** The dict literal [{"username": username, "password": password}]. *)
Definition credentials_record (username password : string) : pyobj :=
  PyDict (<["username" := PyStr username]> (<["password" := PyStr password]> ∅)).

(** ** The world: file system, entropy, clock, log *)

(** A path names a directory or a regular file; a regular file has its bytes
    and a write permission.  [Regular] is a file the process may open for
    reading, [Unreadable] one it may not; [os.path.exists] is true of both. *)
Inductive node :=
| Directory
| Regular (content : bytes) (writable : bool)
| Unreadable (content : bytes) (writable : bool).

(** What a completed [open(p, 'wb')] and write leave at a path: a file that
    was created, or could be read before, can be read; a write-only file
    stays write-only. *)
Definition rewritten (old : option node) (content : bytes) : node :=
  match old with
  | Some (Unreadable _ _) => Unreadable content true
  | _ => Regular content true
  end.

Inductive log_record :=
| Info (msg : string)
| ErrorTrace (msg : string) (cause : exn).

Record world := World {
  w_fs : gmap path node;        (* what exists at which path *)
  w_creatable : gset path;      (* absent paths at which a file can be created *)
  w_free : nat;                 (* bytes the disk can still take: whole blocks on a real disk *)
  w_block : nat;                (* bytes of the blocks in which the disk hands out space *)
  w_entropy : bytes;            (* what os.urandom will hand out *)
  w_clock : Z;                  (* int(time.time()) *)
  w_log : list log_record       (* what the logger has received, oldest first *)
}.

(** The room a file of [n] bytes occupies: whole blocks. *)
Definition allocated (block n : nat) : nat := (block * ((n + (block - 1)) / block))%nat.

Definition with_fs (w : world) (fs : gmap path node) (free : nat) : world :=
  World fs (w_creatable w) free (w_block w) (w_entropy w) (w_clock w) (w_log w).
Definition with_entropy (w : world) (e : bytes) : world :=
  World (w_fs w) (w_creatable w) (w_free w) (w_block w) e (w_clock w) (w_log w).
Definition with_log (w : world) (l : list log_record) : world :=
  World (w_fs w) (w_creatable w) (w_free w) (w_block w) (w_entropy w) (w_clock w) l.

(** The fields of a [TolinoUploader] the credential cache uses (the browser
    handles play no part in it). *)
Record uploader := Uploader {
  _credentials : pyobj;
  _encryption_key : option bytes
}.

(** ** Computations: state passing with exceptions *)

Definition M (A : Type) : Type := uploader * world → outcome A * (uploader * world).

Definition raise {A} (e : exn) : M A := λ s, (Raises e, s).
Definition lift {A} (o : outcome A) : M A := λ s, (o, s).

#[global] Instance M_ret : MRet M := λ A a s, (Returns a, s).
#[global] Instance M_bind : MBind M :=
  λ A B k m s, match m s with
               | (Returns a, s') => k a s'
               | (Raises e, s') => (Raises e, s')
               end.

(** [try: body except Exception as e: handler(e)]; the state reached when the
    exception was raised is the one the handler starts from. *)
Definition try_except {A} (body : M A) (handler : exn → M A) : M A :=
  λ s, match body s with
       | (Returns a, s') => (Returns a, s')
       | (Raises e, s') => handler e s'
       end.

Definition get_credentials : M pyobj := λ s, (Returns (_credentials (fst s)), s).
Definition set_credentials (v : pyobj) : M unit :=
  λ s, (Returns tt, (Uploader v (_encryption_key (fst s)), snd s)).
Definition get_encryption_key : M (option bytes) := λ s, (Returns (_encryption_key (fst s)), s).
Definition set_encryption_key (k : option bytes) : M unit :=
  λ s, (Returns tt, (Uploader (_credentials (fst s)) k, snd s)).

(** *** File system primitives *)

(** [os.path.exists(p)] *)
Definition os_path_exists (p : path) : M bool :=
  λ s, (Returns (bool_decide (is_Some (w_fs (snd s) !! p))), s).

(** [with open(p, 'rb') as f: f.read()] *)
Definition read_file (p : path) : M bytes :=
  λ s, match w_fs (snd s) !! p with
       | Some (Regular content _) => (Returns content, s)
       | Some (Unreadable _ _) => (Raises PermissionError, s)
       | Some Directory => (Raises IsADirectoryError, s)
       | None => (Raises FileNotFoundError, s)
       end.

(** [open(p, 'wb')]: an existing writable file is truncated on the spot, and
    the blocks it occupied go back to the free space; an absent file is
    created empty where that is allowed. *)
Definition open_wb (p : path) : M unit :=
  λ s, let w := snd s in
       match w_fs w !! p with
       | Some Directory => (Raises IsADirectoryError, s)
       | Some (Regular content false) => (Raises PermissionError, s)
       | Some (Regular content true) =>
           (Returns tt, (fst s, with_fs w (<[p := Regular [] true]> (w_fs w))
                                          (w_free w + allocated (w_block w) (length content))))
       | Some (Unreadable content false) => (Raises PermissionError, s)
       | Some (Unreadable content true) =>
           (Returns tt, (fst s, with_fs w (<[p := Unreadable [] true]> (w_fs w))
                                          (w_free w + allocated (w_block w) (length content))))
       | None =>
           if bool_decide (p ∈ w_creatable w)
           then (Returns tt, (fst s, with_fs w (<[p := Regular [] true]> (w_fs w)) (w_free w)))
           else (Raises PermissionError, s)
       end.

(** The bytes that are free once [open(p, 'wb')] has succeeded, or the
    exception it raises. *)
Definition room_at (w : world) (p : path) : outcome nat :=
  match w_fs w !! p with
  | Some Directory => Raises IsADirectoryError
  | Some (Regular content true) | Some (Unreadable content true) =>
      Returns (w_free w + allocated (w_block w) (length content))%nat
  | Some (Regular _ false) | Some (Unreadable _ false) => Raises PermissionError
  | None => if bool_decide (p ∈ w_creatable w) then Returns (w_free w) else Raises PermissionError
  end.

(** [f.write(b)] followed by the flush of the closing [with]: all of [b]
    reaches the disk and takes the blocks it needs, or the disk fills up and a
    prefix of it does.  The free space of a disk is a multiple of its block
    size, so the bytes fit exactly when their blocks do. *)
Definition write_close (p : path) (b : bytes) : M unit :=
  λ s, let w := snd s in
       match w_fs w !! p with
       | Some (Regular content true) =>
           if (length b <=? w_free w)%nat
           then (Returns tt, (fst s, with_fs w (<[p := Regular (content ++ b)%list true]> (w_fs w))
                                               (w_free w - (allocated (w_block w) (length (content ++ b)%list)
                                                            - allocated (w_block w) (length content)))))
           else (Raises NoSpaceError,
                 (fst s, with_fs w (<[p := Regular (content ++ take (w_free w) b)%list true]> (w_fs w)) 0))
       | Some (Unreadable content true) =>
           if (length b <=? w_free w)%nat
           then (Returns tt, (fst s, with_fs w (<[p := Unreadable (content ++ b)%list true]> (w_fs w))
                                               (w_free w - (allocated (w_block w) (length (content ++ b)%list)
                                                            - allocated (w_block w) (length content)))))
           else (Raises NoSpaceError,
                 (fst s, with_fs w (<[p := Unreadable (content ++ take (w_free w) b)%list true]> (w_fs w)) 0))
       | _ => (Raises NotOpenError, s)
       end.

(** [os.urandom(n)] *)
Definition os_urandom (n : nat) : M bytes :=
  λ s, let w := snd s in
       if (n <=? length (w_entropy w))%nat
       then (Returns (take n (w_entropy w)), (fst s, with_entropy w (drop n (w_entropy w))))
       else (Raises EntropyError, s).

(** [int(time.time())] *)
Definition time_time : M Z := λ s, (Returns (w_clock (snd s)), s).

(** Modelled from the spec: the [logger] module ([setup_logger], with its
    [info] and [error_trace] methods) is not among the sources.  The spec says
    failures are "logged with full diagnostic context (including the
    underlying cause)" and are non-fatal: a record is appended, nothing is
    raised. *)
Definition logger_info (msg : string) : M unit :=
  λ s, (Returns tt, (fst s, with_log (snd s) (w_log (snd s) ++ [Info msg]))).
Definition logger_error_trace (msg : string) (e : exn) : M unit :=
  λ s, (Returns tt, (fst s, with_log (snd s) (w_log (snd s) ++ [ErrorTrace msg e]))).

(** ** What the uploader imports *)

(** [from env import TOLINO_CREDENTIALS_FILE, ENCRYPTION_KEY_FILE] *)
Class Settings := {
  TOLINO_CREDENTIALS_FILE : path;
  ENCRYPTION_KEY_FILE : path
}.

(** [cryptography.fernet]: which byte strings are keys, the token built from
    a key, a timestamp, an IV and a plaintext, and the authenticated inverse,
    which rejects what it cannot verify. *)
Class FernetLib := {
  fernet_key_valid : bytes → bool;
  fernet_seal : bytes → Z → bytes → bytes → bytes;
  fernet_open : bytes → bytes → option bytes;
  urlsafe_b64encode : bytes → bytes
}.

(** [json.dumps], [json.loads], [str.encode('utf-8')], [bytes.decode('utf-8')]. *)
Class CodecLib := {
  json_dumps : pyobj → outcome string;
  json_loads : string → outcome pyobj;
  utf8_encode : string → outcome bytes;
  utf8_decode : bytes → outcome string
}.

(** What the round-trip theorem assumes of the two libraries: a token opens
    under the key that sealed it, the empty byte string is no key, decoding
    undoes encoding, and [json.loads] undoes [json.dumps] on a credentials
    record. *)
Class LawfulLibs (fernet : FernetLib) (codec : CodecLib) : Prop := {
  fernet_open_seal : ∀ key now iv data,
    fernet_key_valid key = true → fernet_open key (fernet_seal key now iv data) = Some data;
  fernet_empty_key : fernet_key_valid [] = false;
  utf8_decode_encode : ∀ text b,
    utf8_encode text = Returns b → utf8_decode b = Returns text;
  json_loads_dumps : ∀ username password text,
    json_dumps (credentials_record username password) = Returns text →
    json_loads text = Returns (credentials_record username password)
}.

(** The same laws at one pair of strings.  [json.loads] does not undo
    [json.dumps] on every Python string (two surrogate code points in a row
    are written as one escape pair and read back as one character), so the
    round trip of a pair is stated for the pairs on which it does. *)
Definition round_trips (fernet : FernetLib) (codec : CodecLib)
    (username password : string) : Prop :=
  (∀ key now iv data,
     fernet_key_valid key = true → fernet_open key (fernet_seal key now iv data) = Some data)
  ∧ fernet_key_valid [] = false
  ∧ (∀ text b, utf8_encode text = Returns b → utf8_decode b = Returns text)
  ∧ (∀ text, json_dumps (credentials_record username password) = Returns text →
             json_loads text = Returns (credentials_record username password)).

(** What the rotated-key case assumes of Fernet: what [Fernet.generate_key]
    makes of 32 random bytes is a key, and a token sealed under one generated
    key is rejected under another (the authentication of the token, taken as
    exact). *)
Class KeySeparation (fernet : FernetLib) : Prop := {
  generated_key_valid : ∀ seed,
    length seed = 32%nat → fernet_key_valid (urlsafe_b64encode seed) = true;
  generated_key_nonempty : ∀ seed,
    length seed = 32%nat → urlsafe_b64encode seed ≠ [];
  fernet_open_foreign : ∀ seed seed' now iv data,
    length seed = 32%nat → length seed' = 32%nat → seed ≠ seed' →
    fernet_open (urlsafe_b64encode seed')
                (fernet_seal (urlsafe_b64encode seed) now iv data) = None
}.

(** ** tolino_uploader.py *)

Section TolinoUploader.
Context {settings : Settings} {fernet : FernetLib} {codec : CodecLib}.

(** [Fernet(key)]: [None] is not bytes-like, anything but a valid key is a
    [ValueError]. *)
Definition Fernet (key : option bytes) : M bytes :=
  match key with
  | None => raise TypeError
  | Some k => if fernet_key_valid k then mret k else raise ValueError
  end.

(** [Fernet.generate_key()] *)
Definition Fernet_generate_key : M bytes :=
  seed ← os_urandom 32; mret (urlsafe_b64encode seed).

(** [cipher_suite.encrypt(data)] *)
Definition Fernet_encrypt (cipher_suite data : bytes) : M bytes :=
  now ← time_time; iv ← os_urandom 16; mret (fernet_seal cipher_suite now iv data).

(** [cipher_suite.decrypt(token)] *)
Definition Fernet_decrypt (cipher_suite token : bytes) : M bytes :=
  match fernet_open cipher_suite token with
  | Some data => mret data
  | None => raise InvalidToken
  end.

(** Lines 32-45. *)
Definition _load_encryption_key : M unit :=
  try_except
    (found ← os_path_exists ENCRYPTION_KEY_FILE;
     if found : bool then
       content ← read_file ENCRYPTION_KEY_FILE;
       set_encryption_key (Some content)
     else
       key ← Fernet_generate_key;
       set_encryption_key (Some key);;
       open_wb ENCRYPTION_KEY_FILE;;
       write_close ENCRYPTION_KEY_FILE key;;
       logger_info "Generated new encryption key")
    (λ e, logger_error_trace "Error loading/generating encryption key" e).

(** Lines 47-60. *)
Definition _load_credentials : M unit :=
  try_except
    (found ← os_path_exists TOLINO_CREDENTIALS_FILE;
     key ← get_encryption_key;
     if found && bytes_truthy key then
       encrypted_data ← read_file TOLINO_CREDENTIALS_FILE;
       key ← get_encryption_key;
       cipher_suite ← Fernet key;
       decrypted_data ← Fernet_decrypt cipher_suite encrypted_data;
       text ← lift (utf8_decode decrypted_data);
       record ← lift (json_loads text);
       set_credentials record;;
       logger_info "Loaded Tolino credentials"
     else mret tt)
    (λ e, logger_error_trace "Error loading credentials" e;;
          set_credentials (PyDict ∅)).

(** Lines 62-83. *)
Definition save_credentials (username password : string) : M bool :=
  try_except
    (key ← get_encryption_key;
     (if negb (bytes_truthy key) then _load_encryption_key else mret tt);;
     set_credentials (credentials_record username password);;
     key ← get_encryption_key;
     cipher_suite ← Fernet key;
     record ← get_credentials;
     text ← lift (json_dumps record);
     plain ← lift (utf8_encode text);
     encrypted_data ← Fernet_encrypt cipher_suite plain;
     open_wb TOLINO_CREDENTIALS_FILE;;
     write_close TOLINO_CREDENTIALS_FILE encrypted_data;;
     logger_info "Saved Tolino credentials";;
     mret true)
    (λ e, logger_error_trace "Error saving credentials" e;; mret false).

(** Lines 85-87:
    [bool(self._credentials.get("username") and self._credentials.get("password"))]. *)
Definition has_credentials : M bool :=
  record ← get_credentials;
  username ← lift (py_get record "username");
  if truthy username then
    password ← lift (py_get record "password");
    mret (truthy password)
  else mret false.

(** Lines 22-30. *)
Definition __init__ : M unit :=
  set_credentials (PyDict ∅);;
  set_encryption_key None;;
  _load_encryption_key;;
  _load_credentials.

(** [TolinoUploader()]: a new object, then [__init__]. *)
Definition blank : uploader := Uploader PyNone None.
Definition TolinoUploader (w : world) : outcome unit * (uploader * world) :=
  __init__ (blank, w).

(** *** Two views used by the proofs *)

(** What lines 51-56 compute from the key in memory and what is found at the
    credentials path: the record, or the exception that ends the attempt. *)
Definition stored_record (key : option bytes) (file : option node) : outcome pyobj :=
  match file with
  | None => Raises FileNotFoundError
  | Some Directory => Raises IsADirectoryError
  | Some (Unreadable _ _) => Raises PermissionError
  | Some (Regular encrypted_data _) =>
      match key with
      | None => Raises TypeError
      | Some k =>
          if fernet_key_valid k then
            match fernet_open k encrypted_data with
            | None => Raises InvalidToken
            | Some decrypted_data =>
                match utf8_decode decrypted_data with
                | Raises e => Raises e
                | Returns text => json_loads text
                end
            end
          else Raises ValueError
      end
  end.

(** Lines 68-83: [save_credentials] from the assignment to [self._credentials]
    on, once the key step of lines 65-66 is over. *)
Definition write_credentials (username password : string) : M bool :=
  try_except
    (set_credentials (credentials_record username password);;
     key ← get_encryption_key;
     cipher_suite ← Fernet key;
     record ← get_credentials;
     text ← lift (json_dumps record);
     plain ← lift (utf8_encode text);
     encrypted_data ← Fernet_encrypt cipher_suite plain;
     open_wb TOLINO_CREDENTIALS_FILE;;
     write_close TOLINO_CREDENTIALS_FILE encrypted_data;;
     logger_info "Saved Tolino credentials";;
     mret true)
    (λ e, logger_error_trace "Error saving credentials" e;; mret false).

(** What lines 73-74 hand to the file write: the token, or the exception of
    the step that failed ([Fernet(...)], [json.dumps], [.encode], the IV). *)
Definition sealed_token (key : option bytes) (username password : string) (w : world)
  : outcome bytes :=
  match key with
  | None => Raises TypeError
  | Some k =>
      if fernet_key_valid k then
        match json_dumps (credentials_record username password) with
        | Raises e => Raises e
        | Returns text =>
            match utf8_encode text with
            | Raises e => Raises e
            | Returns plain =>
                if (16 <=? length (w_entropy w))%nat
                then Returns (fernet_seal k (w_clock w) (take 16 (w_entropy w)) plain)
                else Raises EntropyError
            end
        end
      else Raises ValueError
  end.

(** The state the key step of lines 65-66 leaves. *)
Definition after_key_step (s : uploader * world) : uploader * world :=
  if negb (bytes_truthy (_encryption_key (fst s))) then snd (_load_encryption_key s) else s.

End TolinoUploader.

(** ** A small concrete instance of the imported libraries

    Used to run the operations on concrete worlds.  The cipher prefixes the
    plaintext with the key and checks that prefix when opening; the codec
    writes and reads the JSON text of a credentials record (and the empty
    array). *)

Module Toy.

Fixpoint strip_bytes (k c : bytes) : option bytes :=
  match k, c with
  | [], _ => Some c
  | x :: k', y :: c' => if Byte.eqb x y then strip_bytes k' c' else None
  | _ :: _, [] => None
  end.

#[export] Instance fernet : FernetLib := {|
  fernet_key_valid k := Nat.eqb (length k) 32;
  fernet_seal k now iv data := (k ++ data)%list;
  fernet_open k token := strip_bytes k token;
  urlsafe_b64encode b := b
|}.

Definition quote : ascii := ascii_of_nat 34.
Definition backslash : ascii := "\"%char.

Fixpoint escape (s : string) : string :=
  match s with
  | EmptyString => EmptyString
  | String c s' =>
      if Ascii.eqb c quote || Ascii.eqb c backslash
      then String backslash (String c (escape s'))
      else String c (escape s')
  end.

(** Reads an escaped string up to its closing quote. *)
Fixpoint read_string (s : string) : option (string * string) :=
  match s with
  | EmptyString => None
  | String c rest =>
      if Ascii.eqb c quote then Some (EmptyString, rest)
      else if Ascii.eqb c backslash then
        match rest with
        | EmptyString => None
        | String d rest' =>
            match read_string rest' with
            | Some (x, r) => Some (String d x, r)
            | None => None
            end
        end
      else
        match read_string rest with
        | Some (x, r) => Some (String c x, r)
        | None => None
        end
  end.

Fixpoint strip_string (k s : string) : option string :=
  match k, s with
  | EmptyString, _ => Some s
  | String x k', String y s' => if Ascii.eqb x y then strip_string k' s' else None
  | String _ _, EmptyString => None
  end.

Definition open_text : string := String "{" (String quote ("username" ++ String quote (": " ++ String quote EmptyString))).
Definition middle_text : string := ", " ++ String quote ("password" ++ String quote (": " ++ String quote EmptyString)).
Definition close_text : string := "}".

Definition dumps (v : pyobj) : outcome string :=
  match v with
  | PyDict d =>
      match d !! "username", d !! "password" with
      | Some (PyStr u), Some (PyStr p) =>
          Returns (open_text ++ escape u ++ String quote (middle_text ++ escape p ++ String quote close_text))
      | _, _ => Raises TypeError
      end
  | PyList [] => Returns "[]"
  | _ => Raises TypeError
  end.

Definition loads (s : string) : outcome pyobj :=
  if String.eqb s "[]" then Returns (PyList [])
  else
    match strip_string open_text s with
    | Some s1 =>
        match read_string s1 with
        | Some (u, s2) =>
            match strip_string middle_text s2 with
            | Some s3 =>
                match read_string s3 with
                | Some (p, s4) =>
                    if String.eqb s4 close_text
                    then Returns (credentials_record u p)
                    else Raises JSONDecodeError
                | None => Raises JSONDecodeError
                end
            | None => Raises JSONDecodeError
            end
        | None => Raises JSONDecodeError
        end
    | None => Raises JSONDecodeError
    end.

#[export] Instance codec : CodecLib := {|
  json_dumps := dumps;
  json_loads := loads;
  utf8_encode s := Returns (list_byte_of_string s);
  utf8_decode b := Returns (string_of_list_byte b)
|}.

(** The defaults of env.py, with [TMP_DIR] at its default. *)
#[export] Instance settings : Settings := {|
  TOLINO_CREDENTIALS_FILE := "/tmp/cwa-book-downloader/tolino_credentials.enc";
  ENCRYPTION_KEY_FILE := "/tmp/cwa-book-downloader/encryption_key.bin"
|}.

Definition key_a : bytes := repeat "a"%byte 32.
Definition key_b : bytes := repeat "b"%byte 32.

(** The token this cipher and codec make of a credentials record. *)
Definition token_of (key : bytes) (username password : string) : bytes :=
  match dumps (credentials_record username password) with
  | Returns text => (key ++ list_byte_of_string text)%list
  | Raises _ => []
  end.

(** A disk with blocks of 4096 bytes. *)
Definition disk (files : gmap path node) (creatable : gset path) (free : nat) : world :=
  {| w_fs := files;
     w_creatable := creatable;
     w_free := free;
     w_block := 4096;
     w_entropy := (key_a ++ repeat "i"%byte 16 ++ key_b ++ repeat "j"%byte 16)%list;
     w_clock := 1700000000;
     w_log := [] |}.

(** Nothing on disk yet, both files can be created, plenty of room. *)
Definition empty_disk : world :=
  disk ∅ {[ TOLINO_CREDENTIALS_FILE; ENCRYPTION_KEY_FILE ]} (4 * 4096).

(** Nothing on disk and nothing can be created. *)
Definition locked_disk : world := disk ∅ ∅ (4 * 4096).

(** A key file is there; the credentials file is not, and can be created. *)
Definition keyed_disk : world :=
  disk {[ ENCRYPTION_KEY_FILE := Regular key_a true ]} {[ TOLINO_CREDENTIALS_FILE ]} (4 * 4096).

(** Credentials sealed under [key_a], and a key file that now holds [key_b]. *)
Definition rotated_disk : world :=
  disk {[ ENCRYPTION_KEY_FILE := Regular key_b true;
          TOLINO_CREDENTIALS_FILE :=
            Regular (token_of key_a "reader@example.com" "Secr3t!") true ]} ∅ (4 * 4096).

(** Credentials of an earlier save on a disk with no room left. *)
Definition full_disk : world :=
  disk {[ ENCRYPTION_KEY_FILE := Regular key_a true;
          TOLINO_CREDENTIALS_FILE := Regular (token_of key_a "a" "b") true ]} ∅ 0.

(** A credentials file that opens under the key and holds the JSON text of
    an empty array. *)
Definition array_disk : world :=
  disk {[ ENCRYPTION_KEY_FILE := Regular key_a true;
          TOLINO_CREDENTIALS_FILE :=
            Regular (key_a ++ list_byte_of_string "[]")%list true ]} ∅ (4 * 4096).

(** The key file cannot be created, the credentials file can. *)
Definition keyless_disk : world := disk ∅ {[ TOLINO_CREDENTIALS_FILE ]} (4 * 4096).

(** A password of 8000 characters: its token needs more room than the one
    block that the token of a short pair gives back. *)
Definition long_password : string := string_of_list_ascii (repeat "x"%char (80 * 100)).

(** The uploader built on [full_disk], and the save attempted there. *)
Definition loaded_full : uploader * world := snd (TolinoUploader full_disk).
Definition failed_save : outcome bool * (uploader * world) :=
  save_credentials "reader@example.com" long_password loaded_full.

(** The uploader built on [empty_disk], and a save done there. *)
Definition started : uploader * world := snd (TolinoUploader empty_disk).
Definition saved : outcome bool * (uploader * world) :=
  save_credentials "reader@example.com" "Secr3t!" started.

End Toy.


(** ** tolino_uploader.py: the upload workflow *)

(** The workflow drives a browser through Playwright, which is not part of
    the repository.  Each call the code awaits is an [action]; the browser
    answers an action, given everything attempted so far, by accepting it or
    by raising, and every attempt is recorded. *)
Inductive action :=
| Start                                            (* async_playwright().start() *)
| Launch                                           (* playwright.chromium.launch(headless=True) *)
| NewContext                                       (* browser.new_context() *)
| NewPage                                          (* context.new_page() *)
| Close                                            (* browser.close() *)
| Goto (url : string)                              (* page.goto(url) *)
| WaitForSelector (selector : string) (timeout : Z) (* page.wait_for_selector(selector, timeout=...) *)
| Fill (selector : string) (value : pyobj)         (* page.fill(selector, value) *)
| Click (selector : string)                        (* page.click(selector) *)
| ClickElement (selector : string)                 (* click() on the element found for selector *)
| ExpectFileChooser                                (* async with page.expect_file_chooser(): pass *)
| FileChooserValue                                 (* await fc_info.value *)
| SetFiles (files : string).                       (* file_chooser.set_files(files) *)

(** What the workflow can raise: an exception of the cache layer, a missing
    dict key, or one of Playwright's two errors. *)
Inductive pyexn :=
| CacheError (e : exn)
| KeyError
| PlaywrightError
| PlaywrightTimeout.

Record browser := Browser {
  b_responds : list action → action → option pyexn;
  b_trace : list action
}.

(** The three handles of lines 24-26: set or [None]. *)
Record handles := Handles {
  _browser : bool;
  _context : bool;
  _page : bool
}.

(** Modelled from the spec: the [logger] module is not among the sources; the
    workflow's calls to it ([info], [error], [error_trace]) append to a
    journal and never raise. *)
Inductive journal_entry :=
| JInfo (msg : string)
| JError (msg : string)
| JErrorTrace (msg : string) (cause : pyexn).

Record machine := Machine {
  m_uploader : uploader;
  m_handles : handles;
  m_world : world;
  m_browser : browser;
  m_journal : list journal_entry
}.

Inductive result (A : Type) :=
| Done (a : A)
| Failed (e : pyexn).
Arguments Done {A} a.
Arguments Failed {A} e.

(** The [async def] methods, awaited one after the other. *)
Definition Async (A : Type) : Type := machine → result A * machine.

#[global] Instance Async_ret : MRet Async := λ A a st, (Done a, st).
#[global] Instance Async_bind : MBind Async :=
  λ A B k m st, match m st with
                | (Done a, st') => k a st'
                | (Failed e, st') => (Failed e, st')
                end.

Definition fail {A} (e : pyexn) : Async A := λ st, (Failed e, st).

Definition try_except_async {A} (body : Async A) (handler : pyexn → Async A) : Async A :=
  λ st, match body st with
        | (Done a, st') => (Done a, st')
        | (Failed e, st') => handler e st'
        end.

(** [try: body finally: cleanup]: the cleanup always runs; what the body
    returned or raised stands unless the cleanup itself raises. *)
Definition try_finally {A} (body : Async A) (cleanup : Async unit) : Async A :=
  λ st, match body st with
        | (r, st') =>
            match cleanup st' with
            | (Done _, st'') => (r, st'')
            | (Failed e, st'') => (Failed e, st'')
            end
        end.

(** A method of the credential cache, called from the workflow. *)
Definition cache {A} (m : M A) : Async A :=
  λ st, match m (m_uploader st, m_world st) with
        | (Returns a, (u, w)) =>
            (Done a, Machine u (m_handles st) w (m_browser st) (m_journal st))
        | (Raises e, (u, w)) =>
            (Failed (CacheError e), Machine u (m_handles st) w (m_browser st) (m_journal st))
        end.

(** One awaited Playwright call. *)
Definition pw (a : action) : Async unit :=
  λ st, let br := m_browser st in
        let st' := Machine (m_uploader st) (m_handles st) (m_world st)
                     (Browser (b_responds br) (b_trace br ++ [a])) (m_journal st) in
        match b_responds br (b_trace br) a with
        | None => (Done tt, st')
        | Some e => (Failed e, st')
        end.

Definition journal (entry : journal_entry) : Async unit :=
  λ st, (Done tt, Machine (m_uploader st) (m_handles st) (m_world st) (m_browser st)
                    (m_journal st ++ [entry])).

Definition get_handles : Async handles := λ st, (Done (m_handles st), st).
Definition set_handles (h : handles) : Async unit :=
  λ st, (Done tt, Machine (m_uploader st) h (m_world st) (m_browser st) (m_journal st)).

(** [self._credentials[key]] *)
Definition subscript (key : string) : Async pyobj :=
  λ st, match _credentials (m_uploader st) with
        | PyDict d => match d !! key with
                      | Some v => (Done v, st)
                      | None => (Failed KeyError, st)
                      end
        | _ => (Failed (CacheError TypeError), st)
        end.

(** The literals of the workflow; [dq] is the double quote inside them. *)
Definition dq : string := String (ascii_of_nat 34) EmptyString.
Definition READER_URL : string := "https://webreader.hugendubel.de/".
Definition EMAIL_INPUT : string := "input[type=" ++ dq ++ "email" ++ dq ++ "]".
Definition PASSWORD_INPUT : string := "input[type=" ++ dq ++ "password" ++ dq ++ "]".
Definition SUBMIT_BUTTON : string := "button[type=" ++ dq ++ "submit" ++ dq ++ "]".
Definition LIBRARY_VIEW : string := ".library-view".
Definition UPLOAD_BUTTON : string :=
  "button.upload-button, button[aria-label=" ++ dq ++ "Upload" ++ dq
  ++ "], button:has-text(" ++ dq ++ "Upload" ++ dq ++ ")".
Definition MENU_BUTTON : string :=
  "button.menu-button, button[aria-label=" ++ dq ++ "Menu" ++ dq ++ "]".
Definition UPLOAD_OPTION : string :=
  "li:has-text(" ++ dq ++ "Upload" ++ dq ++ "), button:has-text(" ++ dq ++ "Upload" ++ dq ++ ")".
Definition UPLOAD_SUCCESS : string :=
  ".upload-success, .success-message, div:has-text(" ++ dq ++ "Upload successful" ++ dq ++ ")".

(** Lines 89-99. *)
Definition _init_browser : Async unit :=
  try_except_async
    (pw Start;;
     pw Launch;;
     h ← get_handles; set_handles (Handles true (_context h) (_page h));;
     pw NewContext;;
     h ← get_handles; set_handles (Handles (_browser h) true (_page h));;
     pw NewPage;;
     h ← get_handles; set_handles (Handles (_browser h) (_context h) true);;
     journal (JInfo "Browser initialized for Tolino upload"))
    (λ e, journal (JErrorTrace "Error initializing browser" e);; fail e).

(** Lines 101-111. *)
Definition _close_browser : Async unit :=
  try_except_async
    (h ← get_handles;
     if _browser h then
       pw Close;;
       set_handles (Handles false false false);;
       journal (JInfo "Browser closed")
     else mret tt)
    (λ e, journal (JErrorTrace "Error closing browser" e)).

(** Lines 113-144. *)
Definition _login_to_tolino : Async bool :=
  h ← get_handles;
  if negb (_page h) then mret false else
  has ← cache has_credentials;
  if negb has then mret false else
  try_except_async
    (pw (Goto READER_URL);;
     pw (WaitForSelector EMAIL_INPUT 30000);;
     username ← subscript "username";
     pw (Fill EMAIL_INPUT username);;
     password ← subscript "password";
     pw (Fill PASSWORD_INPUT password);;
     pw (Click SUBMIT_BUTTON);;
     try_except_async
       (pw (WaitForSelector LIBRARY_VIEW 30000);;
        journal (JInfo "Successfully logged in to Tolino cloud");;
        mret true)
       (λ e, journal (JErrorTrace "Login failed" e);; mret false))
    (λ e, journal (JErrorTrace "Error during Tolino login" e);; mret false).

(** Lines 146-214.  A [return] inside the [try] leaves through the
    [finally], so every branch below ends in the cleanup. *)
Definition upload_book (book_path : string) : Async bool :=
  found ← cache (os_path_exists book_path);
  if negb found then
    journal (JError ("Book file not found: " ++ book_path));;
    mret false
  else
    try_finally
      (try_except_async
         (_init_browser;;
          h ← get_handles;
          if negb (_page h) then
            journal (JError "Browser initialization failed");;
            mret false
          else
            login_success ← _login_to_tolino;
            if negb login_success then
              journal (JError "Failed to login to Tolino cloud");;
              mret false
            else
              opened ← try_except_async
                (pw (WaitForSelector UPLOAD_BUTTON 10000);;
                 pw (ClickElement UPLOAD_BUTTON);;
                 mret true)
                (λ _, journal (JInfo
                        "Upload button not found, looking for alternative upload options");;
                      try_except_async
                        (pw (WaitForSelector MENU_BUTTON 5000);;
                         pw (ClickElement MENU_BUTTON);;
                         pw (WaitForSelector UPLOAD_OPTION 5000);;
                         pw (ClickElement UPLOAD_OPTION);;
                         mret true)
                        (λ e, journal (JErrorTrace "Could not find upload option" e);;
                              mret false));
              if negb opened then mret false
              else
                pw ExpectFileChooser;;
                pw FileChooserValue;;
                pw (SetFiles book_path);;
                try_except_async
                  (pw (WaitForSelector UPLOAD_SUCCESS 60000);;
                   journal (JInfo ("Successfully uploaded book to Tolino cloud: " ++ book_path));;
                   mret true)
                  (λ e, journal (JErrorTrace "Upload confirmation not found" e);;
                        mret false))
         (λ e, journal (JErrorTrace "Error uploading book to Tolino" e);; mret false))
      _close_browser.

(** Lines 219-249: the module's functions, which act on its one instance. *)
Definition upload_book_to_tolino (book_path : string) : Async bool :=
  upload_book book_path.
Definition save_tolino_credentials {settings : Settings} {fernet : FernetLib} {codec : CodecLib}
    (username password : string) : Async bool :=
  cache (save_credentials username password).
Definition has_tolino_credentials : Async bool := cache has_credentials.

(** *** Notions used to state the workflow's properties *)

(** A computation that returns a value from every state. *)
Definition always_returns {A} (m : Async A) : Prop :=
  ∀ st, ∃ a st', m st = (Done a, st').

(** [st] after the actions [acts] were attempted, with handles [h] and the
    entries [entries] journalled. *)
Definition advanced (st : machine) (acts : list action) (h : handles)
    (entries : list journal_entry) : machine :=
  Machine (m_uploader st) h (m_world st)
    (Browser (b_responds (m_browser st)) (b_trace (m_browser st) ++ acts))
    (m_journal st ++ entries).

(** [st] was reached from [st0] by steps that left the cache, the files and
    the browser's behaviour alone and attempted only actions satisfying [P]. *)
Definition evolved (P : action → Prop) (st0 st : machine) : Prop :=
  m_uploader st = m_uploader st0
  ∧ m_world st = m_world st0
  ∧ b_responds (m_browser st) = b_responds (m_browser st0)
  ∧ ∃ acts, b_trace (m_browser st) = (b_trace (m_browser st0) ++ acts)%list ∧ Forall P acts.

(** [m] keeps a run within [evolved P st0]. *)
Definition keeps (P : action → Prop) (st0 : machine) {A} (m : Async A) : Prop :=
  ∀ st, evolved P st0 st → evolved P st0 (snd (m st)).

(** The actions that start and stop the browser; the others act on a page. *)
Definition lifecycle (a : action) : bool :=
  match a with
  | Start | Launch | NewContext | NewPage | Close => true
  | _ => false
  end.

(** ** More concrete worlds *)

Module Scenes.
Import Toy.

(** A key file that holds three bytes, which is no key. *)
Definition bad_key_disk : world :=
  disk {[ ENCRYPTION_KEY_FILE := Regular ["k"%byte; "e"%byte; "y"%byte] true ]}
       {[ TOLINO_CREDENTIALS_FILE ]} (4 * 4096).

(** Some other file next to the two the cache uses. *)
Definition other_file : path := "/tmp/cwa-book-downloader/book.epub".
Definition shared_disk : world :=
  disk {[ other_file := Regular ["b"%byte; "o"%byte; "o"%byte; "k"%byte] true ]}
       {[ TOLINO_CREDENTIALS_FILE; ENCRYPTION_KEY_FILE ]} (4 * 4096).

(** A browser that accepts everything, one that never shows the upload
    button, and one that refuses to start. *)
Definition cooperative : browser := Browser (λ _ _, None) [].
Definition without_button : browser :=
  Browser (λ _ a, match a with
                  | WaitForSelector selector _ =>
                      if String.eqb selector UPLOAD_BUTTON then Some PlaywrightTimeout else None
                  | _ => None
                  end) [].
Definition broken : browser :=
  Browser (λ _ a, match a with Start => Some PlaywrightError | _ => None end) [].

Definition idle : handles := Handles false false false.

(** A key file the process may neither read nor write. *)
Definition unreadable_key_disk : world :=
  disk {[ ENCRYPTION_KEY_FILE := Unreadable key_a false ]} {[ TOLINO_CREDENTIALS_FILE ]} (4 * 4096).

(** A credentials file left behind with write permission only. *)
Definition write_only_disk : world :=
  disk {[ TOLINO_CREDENTIALS_FILE := Unreadable [] true ]} {[ ENCRYPTION_KEY_FILE ]} (4 * 4096).

(** The uploader that saved on [empty_disk], after the credentials file was
    removed from under it. *)
Definition forgotten : uploader * world :=
  (fst (snd saved),
   with_fs (snd (snd saved)) (delete TOLINO_CREDENTIALS_FILE (w_fs (snd (snd saved))))
           (w_free (snd (snd saved)))).

(** An uploader with credentials, and one without, next to a book. *)
Definition ready (br : browser) : machine :=
  Machine (Uploader (credentials_record "reader@example.com" "Secr3t!") (Some key_a))
          idle shared_disk br [].
Definition anonymous (br : browser) : machine :=
  Machine (Uploader (PyDict ∅) (Some key_a)) idle shared_disk br [].

End Scenes.

(** ** env.py: the settings that depend on other settings *)

Module EnvFlags.
Section Builtins.

(** [str.strip()] and [str.upper()] are builtins; the settings below hold for
    whatever they compute. *)
Variables (strip upper : string → string).

(** Line 53. *)
Definition USING_TOR (env : gmap string string) : bool :=
  Env.string_to_bool (Env.getenv env "USING_TOR" "false").

(** Lines 16-17 and 41-42, then the override of lines 55-59. *)
Definition HTTP_PROXY (env : gmap string string) : string :=
  if USING_TOR env then EmptyString else strip (Env.getenv env "HTTP_PROXY" EmptyString).
Definition HTTPS_PROXY (env : gmap string string) : string :=
  if USING_TOR env then EmptyString else strip (Env.getenv env "HTTPS_PROXY" EmptyString).
Definition _CUSTOM_DNS (env : gmap string string) : string :=
  if USING_TOR env then EmptyString else strip (Env.getenv env "CUSTOM_DNS" EmptyString).
Definition USE_DOH (env : gmap string string) : bool :=
  if USING_TOR env then false else Env.string_to_bool (Env.getenv env "USE_DOH" "false").

(** Lines 34-37. *)
Definition LOG_LEVEL (env : gmap string string) : string :=
  if Env.DEBUG env then "DEBUG" else upper (Env.getenv env "LOG_LEVEL" "INFO").

End Builtins.
End EnvFlags.

(** * Properties *)

#[local] Arguments Nat.leb : simpl never.

(** ** env.py: the boolean settings parser *)

Lemma string_to_bool_true_iff (s : string) :
  Env.string_to_bool s = true ↔
  Env.lower s = "true" ∨ Env.lower s = "yes" ∨ Env.lower s = "1" ∨ Env.lower s = "y".
Proof.
  unfold Env.string_to_bool, Env.true_words.
  rewrite bool_decide_eq_true, !elem_of_cons, elem_of_nil. tauto.
Qed.

(** C10: [string_to_bool] answers true exactly when the lower-cased input is
    one of "true", "yes", "1", "y", and false for every other string; "on" and
    "enabled" are false, "TRUE" and "Y" are true; [ENABLE_TOLINO] is this
    parser applied to the setting of that name, "true" when it is unset. *)
Theorem string_to_bool_exact :
  (∀ s, Env.string_to_bool s = true ↔
        Env.lower s = "true" ∨ Env.lower s = "yes" ∨ Env.lower s = "1" ∨ Env.lower s = "y")
  ∧ (∀ s, Env.string_to_bool s = false ↔
          ¬ (Env.lower s = "true" ∨ Env.lower s = "yes" ∨ Env.lower s = "1" ∨ Env.lower s = "y"))
  ∧ Env.string_to_bool "on" = false
  ∧ Env.string_to_bool "enabled" = false
  ∧ Env.string_to_bool "TRUE" = true
  ∧ Env.string_to_bool "Y" = true
  ∧ Env.lower "TRUE" = "true"
  ∧ (∀ env, Env.ENABLE_TOLINO env = Env.string_to_bool (default "true" (env !! "ENABLE_TOLINO"))).
Proof.
  split; [exact string_to_bool_true_iff|].
  split.
  { intros s. rewrite <- string_to_bool_true_iff.
    destruct (Env.string_to_bool s); split; congruence. }
  repeat split; reflexivity.
Qed.

(** ** has_credentials *)

Ltac unfold_monad :=
  unfold mbind, M_bind, mret, M_ret, lift, raise, try_except,
         get_credentials, set_credentials, get_encryption_key, set_encryption_key,
         logger_info, logger_error_trace, os_path_exists, time_time in *;
  cbn [fst snd _credentials _encryption_key with_fs with_entropy with_log
       w_fs w_creatable w_free w_block w_entropy w_clock w_log] in *.

Lemma has_credentials_run (u : uploader) (w : world) :
  has_credentials (u, w) =
  (match _credentials u with
   | PyDict d => Returns (truthy (default PyNone (d !! "username"))
                          && truthy (default PyNone (d !! "password")))
   | _ => Raises AttributeError
   end, (u, w)).
Proof.
  unfold has_credentials, py_get. unfold_monad.
  destruct (_credentials u); try reflexivity.
  destruct (truthy (default PyNone (d !! "username"))); reflexivity.
Qed.

Lemma truthy_str (s : string) : truthy (PyStr s) = true ↔ s ≠ EmptyString.
Proof. destruct s; simpl; split; congruence. Qed.

Lemma credentials_record_lookup (a b : string) :
  ∃ d, credentials_record a b = PyDict d
       ∧ d !! "username" = Some (PyStr a) ∧ d !! "password" = Some (PyStr b).
Proof.
  eexists. split; [reflexivity|]. split.
  - apply lookup_insert_eq.
  - rewrite lookup_insert_ne by discriminate. apply lookup_insert_eq.
Qed.

Lemma has_credentials_record (a b : string) (k : option bytes) (w : world) :
  has_credentials (Uploader (credentials_record a b) k, w) =
  (Returns (truthy (PyStr a) && truthy (PyStr b)), (Uploader (credentials_record a b) k, w)).
Proof.
  rewrite has_credentials_run.
  destruct (credentials_record_lookup a b) as (d & Hd & Ha & Hb).
  cbn [_credentials]. rewrite Hd, Ha, Hb. reflexivity.
Qed.

(** C4: [has_credentials] returns true exactly when the cached record is a
    dict whose "username" and "password" entries are both present and
    non-empty (true in Python's sense; for a string, different from the empty
    string), a dict with a missing or empty field gives false, and the call
    leaves the object and the world as they were and does not depend on the
    world. *)
Theorem has_credentials_iff_both_fields (u : uploader) (w : world) :
  (has_credentials (u, w) = (Returns true, (u, w)) ↔
   ∃ d a b, _credentials u = PyDict d
            ∧ d !! "username" = Some a ∧ d !! "password" = Some b
            ∧ truthy a = true ∧ truthy b = true)
  ∧ (∀ d k, has_credentials (Uploader (PyDict d) k, w) =
            (Returns (truthy (default PyNone (d !! "username"))
                      && truthy (default PyNone (d !! "password"))),
             (Uploader (PyDict d) k, w)))
  ∧ (∀ a b k, has_credentials (Uploader (credentials_record a b) k, w) =
              (Returns (bool_decide (a ≠ EmptyString) && bool_decide (b ≠ EmptyString)),
               (Uploader (credentials_record a b) k, w)))
  ∧ snd (has_credentials (u, w)) = (u, w)
  ∧ (∀ w', fst (has_credentials (u, w')) = fst (has_credentials (u, w)))
  ∧ (∀ s, truthy (PyStr s) = true ↔ s ≠ EmptyString).
Proof.
  split.
  { rewrite has_credentials_run. split.
    - intros Hrun. destruct (_credentials u) as [| | | | | |d]; try discriminate.
      injection Hrun as Hrun. apply andb_true_iff in Hrun as [Ha Hb].
      destruct (d !! "username") as [a|] eqn:Ea; [|discriminate].
      destruct (d !! "password") as [b|] eqn:Eb; [|discriminate].
      exists d, a, b. auto.
    - intros (d & a & b & -> & Ea & Eb & Ha & Hb).
      rewrite Ea, Eb. cbn. rewrite Ha, Hb. reflexivity. }
  split.
  { intros d k. apply has_credentials_run. }
  split.
  { intros a b k. rewrite has_credentials_record.
    destruct a, b; reflexivity. }
  split.
  { rewrite has_credentials_run. reflexivity. }
  split.
  { intros w'. rewrite !has_credentials_run. reflexivity. }
  exact truthy_str.
Qed.

(** ** The credential cache *)

Section Cache.
Context {settings : Settings} {fernet : FernetLib} {codec : CodecLib}.

Ltac unfold_io :=
  unfold Fernet, Fernet_generate_key, Fernet_encrypt, Fernet_decrypt in *;
  unfold read_file, open_wb, write_close, os_urandom in *;
  unfold_monad.

Ltac break_match :=
  repeat (first [rewrite lookup_insert_eq | case_match]; simplify_eq/=; unfold_monad).

(** *** _load_encryption_key *)

Lemma load_key_returns (s : uploader * world) :
  fst (_load_encryption_key s) = Returns tt.
Proof.
  destruct s as [u w]. unfold _load_encryption_key. unfold_io.
  break_match; reflexivity.
Qed.

Lemma load_key_existing (u : uploader) (w : world) (content : bytes) (wr : bool) :
  w_fs w !! ENCRYPTION_KEY_FILE = Some (Regular content wr) →
  _load_encryption_key (u, w) = (Returns tt, (Uploader (_credentials u) (Some content), w)).
Proof.
  intros Hfile. unfold _load_encryption_key. unfold_io.
  rewrite bool_decide_eq_true_2 by eauto. cbn. rewrite Hfile. reflexivity.
Qed.

Lemma load_key_directory (u : uploader) (w : world) :
  w_fs w !! ENCRYPTION_KEY_FILE = Some Directory →
  _load_encryption_key (u, w) =
  (Returns tt, (u, with_log w (w_log w ++
     [ErrorTrace "Error loading/generating encryption key" IsADirectoryError]))).
Proof.
  intros Hfile. unfold _load_encryption_key. unfold_io.
  rewrite bool_decide_eq_true_2 by eauto. cbn. rewrite Hfile. reflexivity.
Qed.

Lemma load_key_unreadable (u : uploader) (w : world) (content : bytes) (wr : bool) :
  w_fs w !! ENCRYPTION_KEY_FILE = Some (Unreadable content wr) →
  _load_encryption_key (u, w) =
  (Returns tt, (u, with_log w (w_log w ++
     [ErrorTrace "Error loading/generating encryption key" PermissionError]))).
Proof.
  intros Hfile. unfold _load_encryption_key. unfold_io.
  rewrite bool_decide_eq_true_2 by eauto. cbn. rewrite Hfile. reflexivity.
Qed.

Lemma load_key_generated (u : uploader) (w : world) :
  w_fs w !! ENCRYPTION_KEY_FILE = None →
  (32 ≤ length (w_entropy w))%nat →
  _encryption_key (fst (snd (_load_encryption_key (u, w))))
  = Some (urlsafe_b64encode (take 32 (w_entropy w))).
Proof.
  intros Hnone Hent. unfold _load_encryption_key. unfold_io.
  rewrite Hnone. rewrite bool_decide_eq_false_2 by (intros [? ?]; discriminate).
  cbn [fst snd]. apply Nat.leb_le in Hent. rewrite Hent. cbn.
  rewrite Hnone. destruct (bool_decide _); cbn; [|reflexivity].
  rewrite lookup_insert_eq.
  destruct (length (urlsafe_b64encode (take 32 (w_entropy w))) <=? w_free w)%nat;
    reflexivity.
Qed.

Lemma load_key_keeps_record (s : uploader * world) :
  _credentials (fst (snd (_load_encryption_key s))) = _credentials (fst s).
Proof.
  destruct s as [u w]. unfold _load_encryption_key. unfold_io.
  break_match; reflexivity.
Qed.

Lemma load_key_keeps_existing_files (s : uploader * world) :
  is_Some (w_fs (snd s) !! ENCRYPTION_KEY_FILE) →
  w_fs (snd (snd (_load_encryption_key s))) = w_fs (snd s).
Proof.
  destruct s as [u w]. cbn [snd]. intros Hsome.
  unfold _load_encryption_key. unfold_io.
  rewrite bool_decide_eq_true_2 by done.
  break_match; reflexivity.
Qed.

Lemma load_key_frame (s : uploader * world) (p : path) :
  p ≠ ENCRYPTION_KEY_FILE →
  w_fs (snd (snd (_load_encryption_key s))) !! p = w_fs (snd s) !! p.
Proof.
  destruct s as [u w]. cbn [snd]. intros Hne.
  unfold _load_encryption_key. unfold_io.
  break_match; cbn; rewrite ?lookup_insert_ne by done; try reflexivity.
Qed.

(** *** _load_credentials *)

Lemma load_credentials_run (u : uploader) (w : world) :
  _load_credentials (u, w) =
  if bool_decide (is_Some (w_fs w !! TOLINO_CREDENTIALS_FILE)) && bytes_truthy (_encryption_key u)
  then match stored_record (_encryption_key u) (w_fs w !! TOLINO_CREDENTIALS_FILE) with
       | Returns record =>
           (Returns tt, (Uploader record (_encryption_key u),
                         with_log w (w_log w ++ [Info "Loaded Tolino credentials"])))
       | Raises e =>
           (Returns tt, (Uploader (PyDict ∅) (_encryption_key u),
                         with_log w (w_log w ++ [ErrorTrace "Error loading credentials" e])))
       end
  else (Returns tt, (u, w)).
Proof.
  unfold _load_credentials, stored_record. unfold_io.
  destruct (bool_decide _ && _); [|reflexivity]. cbn.
  destruct (w_fs w !! TOLINO_CREDENTIALS_FILE) as [[|data wr|data wr]|]; cbn; try reflexivity.
  destruct (_encryption_key u) as [k|] eqn:Ek; cbn; rewrite ?Ek; [|reflexivity].
  destruct (fernet_key_valid k); cbn; rewrite ?Ek; [|reflexivity].
  destruct (fernet_open k data) as [plain|]; cbn; rewrite ?Ek; [|reflexivity].
  destruct (utf8_decode plain) as [text|]; cbn; rewrite ?Ek; [|reflexivity].
  destruct (json_loads text); cbn; rewrite ?Ek; reflexivity.
Qed.

Lemma load_credentials_returns (s : uploader * world) :
  fst (_load_credentials s) = Returns tt.
Proof.
  destruct s as [u w]. rewrite load_credentials_run.
  repeat case_match; reflexivity.
Qed.

(** *** save_credentials *)

Lemma after_key_step_truthy (s : uploader * world) :
  bytes_truthy (_encryption_key (fst s)) = true → after_key_step s = s.
Proof. unfold after_key_step. intros ->. reflexivity. Qed.

Lemma after_key_step_keeps_record (s : uploader * world) :
  _credentials (fst (after_key_step s)) = _credentials (fst s).
Proof.
  unfold after_key_step. destruct (negb _); [|reflexivity].
  apply load_key_keeps_record.
Qed.

Lemma after_key_step_frame (s : uploader * world) (p : path) :
  p ≠ ENCRYPTION_KEY_FILE →
  w_fs (snd (after_key_step s)) !! p = w_fs (snd s) !! p.
Proof.
  intros Hne. unfold after_key_step. destruct (negb _); [|reflexivity].
  by apply load_key_frame.
Qed.

Lemma save_credentials_split (username password : string) (s : uploader * world) :
  save_credentials username password s =
  write_credentials username password (after_key_step s).
Proof.
  unfold save_credentials, write_credentials, after_key_step.
  destruct s as [u w]. unfold_monad.
  destruct (negb (bytes_truthy (_encryption_key u))); [|reflexivity].
  pose proof (load_key_returns (u, w)) as Hret.
  destruct (_load_encryption_key (u, w)) as [o [u1 w1]]. cbn in Hret. subst o.
  reflexivity.
Qed.

Lemma open_wb_run (p : path) (u : uploader) (w : world) :
  open_wb p (u, w) =
  match room_at w p with
  | Raises e => (Raises e, (u, w))
  | Returns room =>
      (Returns tt, (u, with_fs w (<[p := rewritten (w_fs w !! p) []]> (w_fs w)) room))
  end.
Proof.
  unfold open_wb, room_at. cbn [fst snd].
  destruct (w_fs w !! p) as [[|content [|]|content [|]]|]; try reflexivity.
  destruct (bool_decide (p ∈ w_creatable w)); reflexivity.
Qed.

Lemma write_close_opened (p : path) (b : bytes) (u : uploader) (w : world)
    (old : option node) :
  w_fs w !! p = Some (rewritten old []) →
  write_close p b (u, w) =
  if (length b <=? w_free w)%nat
  then (Returns tt, (u, with_fs w (<[p := rewritten old b]> (w_fs w))
                                  (w_free w - allocated (w_block w) (length b))))
  else (Raises NoSpaceError,
        (u, with_fs w (<[p := rewritten old (take (w_free w) b)]> (w_fs w)) 0)).
Proof.
  intros Hopen. unfold write_close. cbn [fst snd]. rewrite Hopen.
  assert (allocated (w_block w) 0 = 0%nat) as Hnone.
  { unfold allocated. destruct (w_block w) as [|n]; [reflexivity|].
    rewrite Nat.div_small by (cbn; lia). lia. }
  destruct old as [[| |]|]; cbn [rewritten app length]; rewrite Hnone, Nat.sub_0_r;
    reflexivity.
Qed.

(** [write_credentials] spelled out: the record is assigned first; then the
    token is prepared, the file opened, the token written; the first step
    that fails sends the run to the handler, in the world reached so far. *)
Lemma write_credentials_run (username password : string) (u : uploader) (w : world) :
  write_credentials username password (u, w) =
  match sealed_token (_encryption_key u) username password w with
  | Raises e =>
      (Returns false,
       (Uploader (credentials_record username password) (_encryption_key u),
        with_log w (w_log w ++ [ErrorTrace "Error saving credentials" e])))
  | Returns token =>
      match open_wb TOLINO_CREDENTIALS_FILE
              (Uploader (credentials_record username password) (_encryption_key u),
               with_entropy w (drop 16 (w_entropy w))) with
      | (Raises e, (u1, w1)) =>
          (Returns false, (u1, with_log w1 (w_log w1 ++ [ErrorTrace "Error saving credentials" e])))
      | (Returns _, s1) =>
          match write_close TOLINO_CREDENTIALS_FILE token s1 with
          | (Raises e, (u2, w2)) =>
              (Returns false, (u2, with_log w2 (w_log w2 ++ [ErrorTrace "Error saving credentials" e])))
          | (Returns _, (u2, w2)) =>
              (Returns true, (u2, with_log w2 (w_log w2 ++ [Info "Saved Tolino credentials"])))
          end
      end
  end.
Proof.
  unfold write_credentials, sealed_token.
  unfold Fernet, Fernet_encrypt, os_urandom. unfold_monad.
  destruct (_encryption_key u) as [k|]; cbn; [|reflexivity].
  destruct (fernet_key_valid k); cbn; [|reflexivity].
  destruct (json_dumps _) as [text|]; cbn; [|reflexivity].
  destruct (utf8_encode text) as [plain|]; cbn; [|reflexivity].
  destruct (16 <=? length (w_entropy w))%nat; cbn; [|reflexivity].
  destruct (open_wb _ _) as [[[]|e] [u1 w1]]; cbn; [|reflexivity].
  destruct (write_close _ _ _) as [[[]|e] [u2 w2]]; reflexivity.
Qed.

(** The four ways [write_credentials] can end: the token could not be
    prepared; the file could not be opened; the disk filled up during the
    write; everything was written. *)
Lemma write_credentials_cases (username password : string) (u : uploader) (w : world) :
  let u' := Uploader (credentials_record username password) (_encryption_key u) in
  let fs := w_fs w in
  (∃ e w', write_credentials username password (u, w) = (Returns false, (u', w'))
           ∧ sealed_token (_encryption_key u) username password w = Raises e
           ∧ w_fs w' = fs
           ∧ last (w_log w') = Some (ErrorTrace "Error saving credentials" e))
  ∨ (∃ token e w', write_credentials username password (u, w) = (Returns false, (u', w'))
           ∧ sealed_token (_encryption_key u) username password w = Returns token
           ∧ room_at w TOLINO_CREDENTIALS_FILE = Raises e
           ∧ w_fs w' = fs
           ∧ last (w_log w') = Some (ErrorTrace "Error saving credentials" e))
  ∨ (∃ token room w', write_credentials username password (u, w) = (Returns false, (u', w'))
           ∧ sealed_token (_encryption_key u) username password w = Returns token
           ∧ room_at w TOLINO_CREDENTIALS_FILE = Returns room
           ∧ (room < length token)%nat
           ∧ w_fs w' = <[TOLINO_CREDENTIALS_FILE :=
                           rewritten (fs !! TOLINO_CREDENTIALS_FILE) (take room token)]> fs
           ∧ w_free w' = 0%nat
           ∧ last (w_log w') = Some (ErrorTrace "Error saving credentials" NoSpaceError))
  ∨ (∃ token room w', write_credentials username password (u, w) = (Returns true, (u', w'))
           ∧ sealed_token (_encryption_key u) username password w = Returns token
           ∧ room_at w TOLINO_CREDENTIALS_FILE = Returns room
           ∧ (length token ≤ room)%nat
           ∧ w_fs w' = <[TOLINO_CREDENTIALS_FILE :=
                           rewritten (fs !! TOLINO_CREDENTIALS_FILE) token]> fs
           ∧ last (w_log w') = Some (Info "Saved Tolino credentials")).
Proof.
  intros u' fs. rewrite write_credentials_run. fold u'.
  destruct (sealed_token _ _ _ _) as [token|e].
  2: { left. eexists _, _. split; [reflexivity|]. split; [reflexivity|].
       split; [reflexivity|]. cbn. apply last_snoc. }
  right. rewrite open_wb_run.
  change (room_at (with_entropy w (drop 16 (w_entropy w))) TOLINO_CREDENTIALS_FILE)
    with (room_at w TOLINO_CREDENTIALS_FILE).
  destruct (room_at w TOLINO_CREDENTIALS_FILE) as [room|e].
  2: { left. eexists token, e, _. split; [reflexivity|]. split; [reflexivity|].
       split; [reflexivity|]. split; [reflexivity|]. cbn. apply last_snoc. }
  right.
  rewrite (write_close_opened _ _ _ _ (fs !! TOLINO_CREDENTIALS_FILE))
    by apply lookup_insert_eq.
  cbn [w_free w_fs with_fs with_entropy].
  destruct (length token <=? room)%nat eqn:Hroom.
  - right. apply Nat.leb_le in Hroom.
    eexists token, room, _. split; [reflexivity|]. split; [reflexivity|].
    split; [reflexivity|]. split; [exact Hroom|]. cbn. split.
    + apply insert_insert_eq.
    + apply last_snoc.
  - left. apply Nat.leb_gt in Hroom.
    eexists token, room, _. split; [reflexivity|]. split; [reflexivity|].
    split; [reflexivity|]. split; [exact Hroom|]. cbn. split.
    + apply insert_insert_eq.
    + split; [reflexivity|]. apply last_snoc.
Qed.

Lemma sealed_token_returns (key : option bytes) (username password : string)
    (w : world) (token : bytes) :
  sealed_token key username password w = Returns token →
  ∃ k text plain,
    key = Some k
    ∧ fernet_key_valid k = true
    ∧ json_dumps (credentials_record username password) = Returns text
    ∧ utf8_encode text = Returns plain
    ∧ token = fernet_seal k (w_clock w) (take 16 (w_entropy w)) plain.
Proof.
  unfold sealed_token. intros Hsealed.
  destruct key as [k|]; [|discriminate].
  destruct (fernet_key_valid k) eqn:Hvalid; [|discriminate].
  destruct (json_dumps _) as [text|] eqn:Hdumps; [|discriminate].
  destruct (utf8_encode text) as [plain|] eqn:Hencode; [|discriminate].
  destruct (16 <=? length (w_entropy w))%nat; [|discriminate].
  injection Hsealed as <-. exists k, text, plain. auto.
Qed.

Lemma save_credentials_returns (username password : string) (s : uploader * world) :
  ∃ r, fst (save_credentials username password s) = Returns r.
Proof.
  rewrite save_credentials_split. destruct (after_key_step s) as [u1 w1].
  destruct (write_credentials_cases username password u1 w1)
    as [(? & ? & -> & _)|[(? & ? & ? & -> & _)|[(? & ? & ? & -> & _)|(? & ? & ? & -> & _)]]];
    eauto.
Qed.

Lemma save_credentials_object (username password : string) (s : uploader * world) :
  fst (snd (save_credentials username password s)) =
  Uploader (credentials_record username password) (_encryption_key (fst (after_key_step s))).
Proof.
  rewrite save_credentials_split. destruct (after_key_step s) as [u1 w1].
  destruct (write_credentials_cases username password u1 w1)
    as [(? & ? & -> & _)|[(? & ? & ? & -> & _)|[(? & ? & ? & -> & _)|(? & ? & ? & -> & _)]]];
    reflexivity.
Qed.

(** [TolinoUploader()] is the two loads, run on the fields of lines 27-28. *)
Lemma TolinoUploader_run (w : world) :
  TolinoUploader w =
  _load_credentials (snd (_load_encryption_key (Uploader (PyDict ∅) None, w))).
Proof.
  unfold TolinoUploader, __init__, blank. unfold_monad.
  pose proof (load_key_returns (Uploader (PyDict ∅) None, w)) as Hret.
  destruct (_load_encryption_key _) as [o s1]. cbn in Hret. subst o. reflexivity.
Qed.

Lemma TolinoUploader_returns (w : world) : fst (TolinoUploader w) = Returns tt.
Proof. rewrite TolinoUploader_run. apply load_credentials_returns. Qed.

(** *** The claims about loading *)

(** C6, as amended: when the key file exists and can be read,
    [_load_encryption_key] sets the key in memory to exactly the bytes of the
    file and leaves the world (the file included) as it was, so a second call
    does the same again; when it exists and cannot be read (no read
    permission, or a directory at the path), the error is caught and logged
    and the key in memory stays as it was.  Whatever exists at the path is
    never modified, and two calls in a row end with the same key. *)
Theorem load_encryption_key_reads_file (u : uploader) (w : world) :
  (∀ content wr,
     w_fs w !! ENCRYPTION_KEY_FILE = Some (Regular content wr) →
     _load_encryption_key (u, w) = (Returns tt, (Uploader (_credentials u) (Some content), w))
     ∧ _load_encryption_key (snd (_load_encryption_key (u, w)))
       = _load_encryption_key (u, w))
  ∧ (∀ content wr,
       w_fs w !! ENCRYPTION_KEY_FILE = Some (Unreadable content wr) →
       _load_encryption_key (u, w) =
       (Returns tt, (u, with_log w (w_log w ++
          [ErrorTrace "Error loading/generating encryption key" PermissionError]))))
  ∧ (w_fs w !! ENCRYPTION_KEY_FILE = Some Directory →
     _load_encryption_key (u, w) =
     (Returns tt, (u, with_log w (w_log w ++
        [ErrorTrace "Error loading/generating encryption key" IsADirectoryError]))))
  ∧ (is_Some (w_fs w !! ENCRYPTION_KEY_FILE) →
     w_fs (snd (snd (_load_encryption_key (u, w)))) = w_fs w
     ∧ _encryption_key (fst (snd (_load_encryption_key (snd (_load_encryption_key (u, w))))))
       = _encryption_key (fst (snd (_load_encryption_key (u, w))))).
Proof.
  split; [|split; [|split]].
  - intros content wr Hfile.
    rewrite (load_key_existing u w content wr Hfile). cbn [fst snd _encryption_key].
    rewrite (load_key_existing _ w content wr Hfile). auto.
  - intros content wr Hfile. apply (load_key_unreadable u w content wr Hfile).
  - apply load_key_directory.
  - intros [n Hn]. destruct n as [|content wr|content wr].
    + rewrite (load_key_directory u w Hn). cbn [fst snd w_fs with_log].
      split; [reflexivity|]. rewrite load_key_directory by exact Hn. reflexivity.
    + rewrite (load_key_existing u w content wr Hn). cbn [fst snd].
      split; [reflexivity|]. rewrite (load_key_existing _ w content wr Hn). reflexivity.
    + rewrite (load_key_unreadable u w content wr Hn). cbn [fst snd w_fs with_log].
      split; [reflexivity|]. rewrite (load_key_unreadable _ _ content wr) by exact Hn.
      reflexivity.
Qed.

(** C9: with no credentials file, or no key in memory, [_load_credentials]
    changes nothing at all, so a record cached earlier stays; in every run the
    record afterwards is the one before (guard false), or the record just
    decoded from the file (and "Loaded Tolino credentials" is logged), or the
    empty dict together with a logged error, which is the exception path. *)
Theorem load_credentials_keeps_record_without_file_or_key (u : uploader) (w : world) :
  (w_fs w !! TOLINO_CREDENTIALS_FILE = None ∨ bytes_truthy (_encryption_key u) = false →
   _load_credentials (u, w) = (Returns tt, (u, w)))
  ∧ ((_load_credentials (u, w) = (Returns tt, (u, w))
      ∧ (w_fs w !! TOLINO_CREDENTIALS_FILE = None ∨ bytes_truthy (_encryption_key u) = false))
     ∨ (∃ k data wr plain text record,
          _encryption_key u = Some k
          ∧ w_fs w !! TOLINO_CREDENTIALS_FILE = Some (Regular data wr)
          ∧ fernet_open k data = Some plain
          ∧ utf8_decode plain = Returns text
          ∧ json_loads text = Returns record
          ∧ _load_credentials (u, w) =
            (Returns tt, (Uploader record (Some k),
                          with_log w (w_log w ++ [Info "Loaded Tolino credentials"]))))
     ∨ (∃ e, _load_credentials (u, w) =
             (Returns tt, (Uploader (PyDict ∅) (_encryption_key u),
                           with_log w (w_log w ++ [ErrorTrace "Error loading credentials" e]))))).
Proof.
  rewrite load_credentials_run. split.
  - intros [Hnone | Hkey].
    + rewrite Hnone. rewrite bool_decide_eq_false_2; [reflexivity|].
      intros [? ?]; discriminate.
    + rewrite Hkey, andb_false_r. reflexivity.
  - destruct (bool_decide _ && _) eqn:Hguard.
    + right. apply andb_true_iff in Hguard as [Hfile Hkey].
      unfold stored_record.
      destruct (w_fs w !! TOLINO_CREDENTIALS_FILE) as [[|data wr|data wr]|];
        [eauto| |eauto|eauto].
      destruct (_encryption_key u) as [k|]; [|eauto].
      destruct (fernet_key_valid k); [|eauto].
      destruct (fernet_open k data) as [plain|] eqn:Hopen; [|eauto].
      destruct (utf8_decode plain) as [text|] eqn:Hdecode; [|eauto].
      destruct (json_loads text) as [record|] eqn:Hloads; [|eauto].
      left. exists k, data, wr, plain, text, record. auto 10.
    + left. split; [reflexivity|].
      apply andb_false_iff in Hguard as [Hfile | Hkey]; [left|by right].
      apply bool_decide_eq_false in Hfile.
      destruct (w_fs w !! TOLINO_CREDENTIALS_FILE); [|reflexivity].
      exfalso. apply Hfile. eauto.
Qed.

(** C2, as amended: [_load_credentials] never raises and changes no file.
    With no credentials file, or no key in memory, it changes nothing, so the
    record stays what it was: the empty dict of line 27 when the constructor
    calls it.  When the file is there and a key is in memory, every failure
    of lines 51-56 resets the record to the empty dict, whatever it was, and
    logs the exception: the path is a directory, the file cannot be read, the
    key is no Fernet key, Fernet rejects the token, the opened bytes do not
    decode or do not parse.  Under [KeySeparation] Fernet rejects a token
    sealed under an earlier generated key, both when the new key is in memory
    and when the constructor generates it because the key file is gone. *)
Theorem load_credentials_absent (u : uploader) (w : world) :
  fst (_load_credentials (u, w)) = Returns tt
  ∧ w_fs (snd (snd (_load_credentials (u, w)))) = w_fs w
  ∧ (w_fs w !! TOLINO_CREDENTIALS_FILE = None ∨ bytes_truthy (_encryption_key u) = false →
     _load_credentials (u, w) = (Returns tt, (u, w)))
  ∧ (∀ k e,
       _encryption_key u = Some k → k ≠ [] →
       (w_fs w !! TOLINO_CREDENTIALS_FILE = Some Directory ∧ e = IsADirectoryError)
       ∨ (∃ data wr, w_fs w !! TOLINO_CREDENTIALS_FILE = Some (Unreadable data wr)
                     ∧ e = PermissionError)
       ∨ (∃ data wr, w_fs w !! TOLINO_CREDENTIALS_FILE = Some (Regular data wr)
                     ∧ fernet_key_valid k = false ∧ e = ValueError)
       ∨ (∃ data wr, w_fs w !! TOLINO_CREDENTIALS_FILE = Some (Regular data wr)
                     ∧ fernet_key_valid k = true
                     ∧ fernet_open k data = None ∧ e = InvalidToken)
       ∨ (∃ data wr plain, w_fs w !! TOLINO_CREDENTIALS_FILE = Some (Regular data wr)
                     ∧ fernet_key_valid k = true
                     ∧ fernet_open k data = Some plain
                     ∧ (utf8_decode plain = Raises e
                        ∨ ∃ text, utf8_decode plain = Returns text
                                  ∧ json_loads text = Raises e)) →
       _load_credentials (u, w) =
       (Returns tt, (Uploader (PyDict ∅) (Some k),
                     with_log w (w_log w ++ [ErrorTrace "Error loading credentials" e]))))
  ∧ (KeySeparation fernet →
     ∀ seed seed' now iv data wr,
       length seed = 32%nat → length seed' = 32%nat → seed ≠ seed' →
       w_fs w !! TOLINO_CREDENTIALS_FILE
       = Some (Regular (fernet_seal (urlsafe_b64encode seed) now iv data) wr) →
       (_encryption_key u = Some (urlsafe_b64encode seed') →
        _load_credentials (u, w) =
        (Returns tt, (Uploader (PyDict ∅) (Some (urlsafe_b64encode seed')),
                      with_log w (w_log w ++
                        [ErrorTrace "Error loading credentials" InvalidToken]))))
       ∧ (ENCRYPTION_KEY_FILE ≠ TOLINO_CREDENTIALS_FILE →
          w_fs w !! ENCRYPTION_KEY_FILE = None →
          (32 ≤ length (w_entropy w))%nat →
          take 32 (w_entropy w) = seed' →
          _credentials (fst (snd (TolinoUploader w))) = PyDict ∅
          ∧ _encryption_key (fst (snd (TolinoUploader w))) = Some (urlsafe_b64encode seed')
          ∧ last (w_log (snd (snd (TolinoUploader w))))
            = Some (ErrorTrace "Error loading credentials" InvalidToken))).
Proof.
  assert (∀ (u0 : uploader) (w0 : world) k e,
            _encryption_key u0 = Some k → k ≠ [] →
            is_Some (w_fs w0 !! TOLINO_CREDENTIALS_FILE) →
            stored_record (Some k) (w_fs w0 !! TOLINO_CREDENTIALS_FILE) = Raises e →
            _load_credentials (u0, w0) =
            (Returns tt, (Uploader (PyDict ∅) (Some k),
                          with_log w0 (w_log w0 ++ [ErrorTrace "Error loading credentials" e]))))
    as Hreset.
  { intros u0 w0 k e Hk Hne Hsome Hstored.
    rewrite load_credentials_run, Hk, Hstored.
    rewrite bool_decide_eq_true_2 by exact Hsome.
    destruct k; [congruence|reflexivity]. }
  assert (∀ (u0 : uploader) (w0 : world) seed seed' now iv data wr,
            KeySeparation fernet →
            length seed = 32%nat → length seed' = 32%nat → seed ≠ seed' →
            w_fs w0 !! TOLINO_CREDENTIALS_FILE
            = Some (Regular (fernet_seal (urlsafe_b64encode seed) now iv data) wr) →
            _encryption_key u0 = Some (urlsafe_b64encode seed') →
            _load_credentials (u0, w0) =
            (Returns tt, (Uploader (PyDict ∅) (Some (urlsafe_b64encode seed')),
                          with_log w0 (w_log w0 ++
                            [ErrorTrace "Error loading credentials" InvalidToken]))))
    as Hforeign.
  { intros u0 w0 seed seed' now iv data wr Hsep Hlen Hlen' Hne Hfile Hkey.
    apply Hreset; [exact Hkey|by apply generated_key_nonempty|rewrite Hfile; eauto|].
    rewrite Hfile. cbn [stored_record].
    rewrite (generated_key_valid seed' Hlen').
    rewrite (fernet_open_foreign seed seed' now iv data Hlen Hlen' Hne). reflexivity. }
  split; [apply load_credentials_returns|].
  split.
  { rewrite load_credentials_run.
    destruct (bool_decide _ && _); [|reflexivity].
    destruct (stored_record _ _); reflexivity. }
  split.
  { intros [Hnone | Hkey]; rewrite load_credentials_run.
    - rewrite Hnone. rewrite bool_decide_eq_false_2; [reflexivity|].
      intros [? ?]; discriminate.
    - rewrite Hkey, andb_false_r. reflexivity. }
  split.
  { intros k e Hk Hne Hcase.
    destruct Hcase as [[Hfile ->]|[(data & wr & Hfile & ->)|[(data & wr & Hfile & Hbad & ->)
                      |[(data & wr & Hfile & Hvalid & Hopen & ->)
                       |(data & wr & plain & Hfile & Hvalid & Hopen & Hparse)]]]];
      (apply Hreset; [exact Hk|exact Hne|rewrite Hfile; eauto|]);
      rewrite Hfile; cbn [stored_record]; rewrite ?Hbad, ?Hvalid, ?Hopen; try reflexivity.
    destruct Hparse as [-> | (text & -> & ->)]; reflexivity. }
  intros Hsep seed seed' now iv data wr Hlen Hlen' Hne Hfile. split.
  - intros Hkey. by apply (Hforeign u w seed seed' now iv data wr).
  - intros Hpaths Hnone Hent Hseed.
    rewrite TolinoUploader_run.
    pose proof (load_key_generated (Uploader (PyDict ∅) None) w Hnone Hent) as Hkey.
    pose proof (load_key_frame (Uploader (PyDict ∅) None, w) TOLINO_CREDENTIALS_FILE
                  (not_eq_sym Hpaths)) as Hframe.
    destruct (_load_encryption_key _) as [o [u1 w1]]. cbn [fst snd] in *.
    rewrite Hseed in Hkey. rewrite Hfile in Hframe.
    rewrite (Hforeign u1 w1 seed seed' now iv data wr Hsep Hlen Hlen' Hne Hframe Hkey).
    cbn [fst snd _credentials _encryption_key w_log with_log].
    rewrite last_snoc. auto.
Qed.

(** *** The claims about saving *)

(** C3, as amended: with the two files at different paths, [save_credentials]
    always returns a boolean and never raises, the record in memory is the
    new pair afterwards, and a key file that existed is never changed.  What
    happens to the credentials file follows the step that fails.  Let the
    token be what lines 73-74 make of the key left by lines 65-66: it exists
    exactly when that key is a valid Fernet key, the record serialises and
    encodes, and an IV can be drawn.  If it does not exist, or if the file
    cannot be opened for writing, the result is false and the credentials
    file is exactly as it was.  If the file was opened, and so truncated, and
    the token is longer than the room then free, the result is false and the
    file holds the proper prefix of the token that fitted.  Otherwise the
    result is true and the file holds the whole token.  Each false result
    logs the exception of the step that failed. *)
Theorem save_credentials_outcomes (username password : string) (s : uploader * world) :
  ENCRYPTION_KEY_FILE ≠ TOLINO_CREDENTIALS_FILE →
  let key := _encryption_key (fst (after_key_step s)) in
  let w1 := snd (after_key_step s) in
  let result := save_credentials username password s in
  let before := w_fs (snd s) !! TOLINO_CREDENTIALS_FILE in
  let after := w_fs (snd (snd result)) !! TOLINO_CREDENTIALS_FILE in
  let logged := last (w_log (snd (snd result))) in
  (∃ r, fst result = Returns r)
  ∧ _credentials (fst (snd result)) = credentials_record username password
  ∧ (∀ n, w_fs (snd s) !! ENCRYPTION_KEY_FILE = Some n →
          w_fs (snd (snd result)) !! ENCRYPTION_KEY_FILE = Some n)
  ∧ (∀ token,
       sealed_token key username password w1 = Returns token ↔
       ∃ k text plain,
         key = Some k
         ∧ fernet_key_valid k = true
         ∧ json_dumps (credentials_record username password) = Returns text
         ∧ utf8_encode text = Returns plain
         ∧ (16 ≤ length (w_entropy w1))%nat
         ∧ token = fernet_seal k (w_clock w1) (take 16 (w_entropy w1)) plain)
  ∧ match sealed_token key username password w1 with
    | Raises e =>
        fst result = Returns false
        ∧ after = before
        ∧ logged = Some (ErrorTrace "Error saving credentials" e)
    | Returns token =>
        match room_at w1 TOLINO_CREDENTIALS_FILE with
        | Raises e =>
            fst result = Returns false
            ∧ after = before
            ∧ logged = Some (ErrorTrace "Error saving credentials" e)
        | Returns room =>
            if (length token <=? room)%nat
            then fst result = Returns true
                 ∧ after = Some (rewritten before token)
                 ∧ logged = Some (Info "Saved Tolino credentials")
            else fst result = Returns false
                 ∧ after = Some (rewritten before (take room token))
                 ∧ take room token ≠ token
                 ∧ logged = Some (ErrorTrace "Error saving credentials" NoSpaceError)
        end
    end.
Proof.
  intros Hpaths. cbv zeta.
  split; [apply save_credentials_returns|].
  split; [rewrite save_credentials_object; reflexivity|].
  pose proof (after_key_step_frame s TOLINO_CREDENTIALS_FILE (not_eq_sym Hpaths)) as Hframe.
  assert (∀ n, w_fs (snd s) !! ENCRYPTION_KEY_FILE = Some n →
               w_fs (snd (after_key_step s)) = w_fs (snd s)) as Hkeep.
  { intros n Hn. unfold after_key_step. destruct (negb _); [|reflexivity].
    apply load_key_keeps_existing_files. eauto. }
  rewrite save_credentials_split.
  destruct (after_key_step s) as [u1 w1]. cbn [fst snd] in *.
  split.
  { intros n Hn.
    destruct (write_credentials_cases username password u1 w1)
      as [(e & w' & -> & _ & Hfs & _)
         |[(token & e & w' & -> & _ & _ & Hfs & _)
          |[(token & room & w' & -> & _ & _ & _ & Hfs & _)
           |(token & room & w' & -> & _ & _ & _ & Hfs & _)]]];
      cbn [fst snd]; rewrite Hfs, ?lookup_insert_ne by auto;
      rewrite (Hkeep n Hn); exact Hn. }
  split.
  { intros token. unfold sealed_token. split.
    - intros Hsealed.
      destruct (_encryption_key u1) as [k|]; [|discriminate].
      destruct (fernet_key_valid k) eqn:Hvalid; [|discriminate].
      destruct (json_dumps _) as [text|] eqn:Hdumps; [|discriminate].
      destruct (utf8_encode text) as [plain|] eqn:Hencode; [|discriminate].
      destruct (16 <=? length (w_entropy w1))%nat eqn:Hent; [|discriminate].
      apply Nat.leb_le in Hent. injection Hsealed as <-.
      exists k, text, plain. auto 10.
    - intros (k & text & plain & -> & -> & -> & -> & Hent & ->).
      apply Nat.leb_le in Hent. rewrite Hent. reflexivity. }
  destruct (write_credentials_cases username password u1 w1)
    as [(e & w' & -> & -> & Hfs & Hlog)
       |[(token & e & w' & -> & -> & -> & Hfs & Hlog)
        |[(token & room & w' & -> & -> & -> & Hroom & Hfs & _ & Hlog)
         |(token & room & w' & -> & -> & -> & Hroom & Hfs & Hlog)]]];
    cbn [fst snd].
  - rewrite Hfs. auto.
  - rewrite Hfs. auto.
  - rewrite (proj2 (Nat.leb_gt _ _) Hroom).
    rewrite Hfs, lookup_insert_eq, Hframe.
    split; [reflexivity|]. split; [reflexivity|]. split; [|exact Hlog].
    intros Heq. apply (f_equal length) in Heq. rewrite length_take in Heq. lia.
  - rewrite (proj2 (Nat.leb_le _ _) Hroom).
    rewrite Hfs, lookup_insert_eq, Hframe. auto.
Qed.

(** C5, as amended: a freshly constructed uploader whose load did not
    succeed (no "Loaded Tolino credentials" was logged), in particular one
    built where no credentials file exists, answers false; and right after a
    [save_credentials] with a non-empty username and a non-empty password
    that returned true, [has_credentials] answers true. *)
Theorem has_credentials_before_and_after_save :
  (∀ w, last (w_log (snd (snd (TolinoUploader w)))) ≠ Some (Info "Loaded Tolino credentials") →
        has_credentials (snd (TolinoUploader w)) = (Returns false, snd (TolinoUploader w)))
  ∧ (∀ w, w_fs w !! TOLINO_CREDENTIALS_FILE = None →
          ENCRYPTION_KEY_FILE ≠ TOLINO_CREDENTIALS_FILE →
          has_credentials (snd (TolinoUploader w)) = (Returns false, snd (TolinoUploader w)))
  ∧ (∀ username password s,
       username ≠ EmptyString → password ≠ EmptyString →
       fst (save_credentials username password s) = Returns true →
       has_credentials (snd (save_credentials username password s))
       = (Returns true, snd (save_credentials username password s))).
Proof.
  assert (∀ k w, has_credentials (Uploader (PyDict ∅) k, w)
                 = (Returns false, (Uploader (PyDict ∅) k, w))) as Hempty.
  { intros k w. rewrite has_credentials_run. reflexivity. }
  split; [|split].
  - intros w. rewrite TolinoUploader_run.
    pose proof (load_key_keeps_record (Uploader (PyDict ∅) None, w)) as Hrec.
    destruct (_load_encryption_key _) as [o [u1 w1]]. cbn [fst snd _credentials] in *.
    destruct u1 as [c1 k1]. cbn in Hrec. subst c1.
    rewrite load_credentials_run. cbn [_encryption_key].
    destruct (bool_decide _ && _); [|intros _; apply Hempty].
    destruct (stored_record _ _); cbn [fst snd w_log with_log].
    + rewrite last_snoc. congruence.
    + intros _. apply Hempty.
  - intros w Hnone Hpaths. rewrite TolinoUploader_run.
    pose proof (load_key_keeps_record (Uploader (PyDict ∅) None, w)) as Hrec.
    pose proof (load_key_frame (Uploader (PyDict ∅) None, w) TOLINO_CREDENTIALS_FILE
                  (not_eq_sym Hpaths)) as Hframe.
    destruct (_load_encryption_key _) as [o [u1 w1]]. cbn [fst snd _credentials] in *.
    destruct u1 as [c1 k1]. cbn in Hrec. subst c1.
    rewrite load_credentials_run, Hframe, Hnone.
    rewrite bool_decide_eq_false_2 by (intros [? ?]; discriminate).
    apply Hempty.
  - intros username password s Hu Hp _.
    pose proof (save_credentials_object username password s) as Hobj.
    destruct (save_credentials username password s) as [r [u2 w2]].
    cbn [fst snd] in *. subst u2.
    rewrite has_credentials_record.
    destruct username, password; try congruence. reflexivity.
Qed.

(** C1, as amended: a [save_credentials] of a non-empty pair that returned
    true is read back by a fresh [TolinoUploader()] over the same files, and
    by [_load_credentials] run on the constructor's state, provided the key
    file holds the key the save used and can be read (a key that was
    generated but could not be written lives in memory only), the credentials
    file can be read, and the libraries round-trip on this pair. *)
Theorem save_then_fresh_load
    (username password : string) (s : uploader * world) (k : bytes) (wr : bool) (w' : world) :
  round_trips fernet codec username password →
  username ≠ EmptyString → password ≠ EmptyString →
  fst (save_credentials username password s) = Returns true →
  _encryption_key (fst (snd (save_credentials username password s))) = Some k →
  w_fs (snd (snd (save_credentials username password s))) !! ENCRYPTION_KEY_FILE
  = Some (Regular k wr) →
  (∀ data wr', w_fs (snd (snd (save_credentials username password s)))
               !! TOLINO_CREDENTIALS_FILE ≠ Some (Unreadable data wr')) →
  w_fs w' = w_fs (snd (snd (save_credentials username password s))) →
  fst (TolinoUploader w') = Returns tt
  ∧ _credentials (fst (snd (TolinoUploader w'))) = credentials_record username password
  ∧ _credentials (fst (snd (_load_credentials (Uploader (PyDict ∅) (Some k), w'))))
    = credentials_record username password.
Proof.
  intros (Hopen & Hempty & Hdecode & Hloads) _ _ Hsaved Hkey Hkeyfile Hreadable Hsame.
  rewrite <- Hsame in Hkeyfile, Hreadable.
  assert (w_fs w' !! TOLINO_CREDENTIALS_FILE ≠ None
          ∧ bytes_truthy (Some k) = true
          ∧ stored_record (Some k) (w_fs w' !! TOLINO_CREDENTIALS_FILE)
            = Returns (credentials_record username password)) as (Hfile & Htruthy & Hstored).
  { revert Hreadable. rewrite Hsame. clear Hsame Hkeyfile.
    rewrite save_credentials_split in *.
    destruct (after_key_step s) as [u1 w1].
    destruct (write_credentials_cases username password u1 w1)
      as [(e & w2 & Hrun & _)
         |[(token & e & w2 & Hrun & _)
          |[(token & room & w2 & Hrun & _)
           |(token & room & w2 & Hrun & Hsealed & _ & _ & Hfs & _)]]];
      rewrite Hrun in *; cbn [fst snd _encryption_key] in *; try discriminate.
    apply sealed_token_returns in Hsealed as (k' & text & plain & Hk & Hv & Hd & He & ->).
    assert (k' = k) as -> by congruence.
    rewrite Hfs, lookup_insert_eq. intros Hreadable.
    assert (rewritten (w_fs w1 !! TOLINO_CREDENTIALS_FILE)
              (fernet_seal k (w_clock w1) (take 16 (w_entropy w1)) plain)
            = Regular (fernet_seal k (w_clock w1) (take 16 (w_entropy w1)) plain) true) as Hnode.
    { destruct (w_fs w1 !! TOLINO_CREDENTIALS_FILE) as [[| |data wr']|]; try reflexivity.
      exfalso. exact (Hreadable _ _ eq_refl). }
    rewrite Hnode. split; [discriminate|]. split.
    - destruct k; [|reflexivity]. rewrite Hempty in Hv. discriminate.
    - cbn. rewrite Hv, (Hopen _ _ _ _ Hv), (Hdecode _ _ He).
      apply (Hloads _ Hd). }
  assert (_load_credentials (Uploader (PyDict ∅) (Some k), w')
          = (Returns tt, (Uploader (credentials_record username password) (Some k),
                          with_log w' (w_log w' ++ [Info "Loaded Tolino credentials"]))))
    as Hload.
  { rewrite load_credentials_run. cbn [_encryption_key].
    rewrite Htruthy, Hstored, bool_decide_eq_true_2; [reflexivity|].
    destruct (w_fs w' !! TOLINO_CREDENTIALS_FILE); [eauto|congruence]. }
  split; [apply TolinoUploader_returns|].
  rewrite TolinoUploader_run, (load_key_existing _ w' k wr Hkeyfile).
  cbn [snd _credentials]. rewrite Hload. auto.
Qed.

Lemma lawful_round_trips (username password : string) :
  LawfulLibs fernet codec → round_trips fernet codec username password.
Proof.
  intros Hlaws. split; [apply fernet_open_seal|]. split; [apply fernet_empty_key|].
  split; [apply utf8_decode_encode|]. intros text. apply json_loads_dumps.
Qed.

(** On every failed save the record in memory is already the new pair. *)
Lemma save_credentials_false_record (username password : string) (s : uploader * world) :
  fst (save_credentials username password s) = Returns false →
  _credentials (fst (snd (save_credentials username password s)))
  = credentials_record username password
  ∧ (username ≠ EmptyString → password ≠ EmptyString →
     has_credentials (snd (save_credentials username password s))
     = (Returns true, snd (save_credentials username password s))).
Proof.
  intros _.
  pose proof (save_credentials_object username password s) as Hobj.
  destruct (save_credentials username password s) as [r [u2 w2]].
  cbn [fst snd] in *. subst u2. split; [reflexivity|].
  intros Hu Hp. rewrite has_credentials_record.
  destruct username, password; try congruence. reflexivity.
Qed.

End Cache.

(** ** Running the operations on concrete worlds *)

Import Toy.

Lemma toy_strip_bytes_app (k d : bytes) : strip_bytes k (k ++ d)%list = Some d.
Proof.
  induction k as [|x k IH]; [reflexivity|].
  cbn. rewrite (Byte.byte_dec_lb eq_refl). exact IH.
Qed.

Lemma toy_append_cons (c : ascii) (k r : string) : String c k ++ r = String c (k ++ r).
Proof. reflexivity. Qed.

Lemma toy_strip_string_app (k r : string) : strip_string k (k ++ r) = Some r.
Proof.
  induction k as [|c k IH]; [reflexivity|].
  rewrite toy_append_cons. cbn [strip_string]. rewrite Ascii.eqb_refl. exact IH.
Qed.

Lemma toy_read_string_escape (u r : string) :
  read_string (escape u ++ String quote r) = Some (u, r).
Proof.
  induction u as [|c u IH].
  { cbn [escape]. change (read_string (String quote r) = Some (EmptyString, r)).
    cbn [read_string]. rewrite Ascii.eqb_refl. reflexivity. }
  cbn [escape].
  assert (Ascii.eqb backslash quote = false) as Hbq by reflexivity.
  destruct (Ascii.eqb c quote) eqn:Hq.
  - apply Ascii.eqb_eq in Hq. subst c. cbn [orb].
    rewrite !toy_append_cons. cbn [read_string].
    rewrite Hbq, Ascii.eqb_refl, IH. reflexivity.
  - destruct (Ascii.eqb c backslash) eqn:Hb; cbn [orb]; rewrite !toy_append_cons;
      cbn [read_string].
    + apply Ascii.eqb_eq in Hb. subst c. rewrite Hq, Ascii.eqb_refl, IH. reflexivity.
    + rewrite Hq, Hb, IH. reflexivity.
Qed.

Lemma toy_dumps_record (username password : string) :
  dumps (credentials_record username password) =
  Returns (open_text ++ escape username
           ++ String quote (middle_text ++ escape password ++ String quote close_text)).
Proof.
  unfold dumps.
  destruct (credentials_record_lookup username password) as (d & Hd & Hu & Hp).
  rewrite Hd, Hu, Hp. reflexivity.
Qed.

Lemma toy_loads_dumps (username password text : string) :
  dumps (credentials_record username password) = Returns text →
  loads text = Returns (credentials_record username password).
Proof.
  rewrite toy_dumps_record. intros [= <-]. unfold loads.
  replace (String.eqb (open_text ++ _) "[]") with false by reflexivity.
  rewrite toy_strip_string_app, toy_read_string_escape.
  rewrite toy_strip_string_app, toy_read_string_escape.
  rewrite String.eqb_refl. reflexivity.
Qed.

Lemma toy_lawful : LawfulLibs Toy.fernet Toy.codec.
Proof.
  split.
  - intros key now iv data _. apply toy_strip_bytes_app.
  - reflexivity.
  - intros text b [= <-]. cbn. f_equal. apply string_of_list_byte_of_string.
  - exact toy_loads_dumps.
Qed.

Lemma toy_strip_bytes_foreign (k k' d : bytes) :
  length k = length k' → k ≠ k' → strip_bytes k' (k ++ d)%list = None.
Proof.
  revert k. induction k' as [|x k' IH]; intros [|y k] Hlen Hne; try discriminate.
  - congruence.
  - cbn. destruct (Byte.eqb x y) eqn:Hxy; [|reflexivity].
    apply Byte.byte_dec_bl in Hxy. subst y.
    apply IH; [by injection Hlen|congruence].
Qed.

Lemma toy_key_separation : KeySeparation Toy.fernet.
Proof.
  split.
  - intros seed Hlen. cbn. rewrite Hlen. reflexivity.
  - intros seed Hlen. cbn. destruct seed; [discriminate|congruence].
  - intros seed seed' now iv data Hlen Hlen' Hne. cbn.
    apply toy_strip_bytes_foreign; congruence.
Qed.

(** The three operations wrapped in [try]/[except] return normally from every
    state, and so does the constructor; [has_credentials] has no handler and
    returns normally exactly when the record is a dict. *)
Lemma wrapped_operations_return {settings : Settings} {fernet : FernetLib} {codec : CodecLib}
    (username password : string) (s : uploader * world) :
  fst (_load_encryption_key s) = Returns tt
  ∧ fst (_load_credentials s) = Returns tt
  ∧ (∃ r, fst (save_credentials username password s) = Returns r)
  ∧ fst (TolinoUploader (snd s)) = Returns tt
  ∧ ((∃ r, fst (has_credentials s) = Returns r) ↔ ∃ d, _credentials (fst s) = PyDict d).
Proof.
  split; [apply load_key_returns|].
  split; [apply load_credentials_returns|].
  split; [apply save_credentials_returns|].
  split; [apply TolinoUploader_returns|].
  destruct s as [u w]. rewrite has_credentials_run. cbn [fst].
  destruct (_credentials u); split; intros [x Hx]; try discriminate; eauto.
Qed.

(** C7, at the input where the code departs from it: the credentials file
    opens under the key of the key file and holds the JSON text of an array;
    the constructor stores the list as the record, and [has_credentials]
    raises [AttributeError] to its caller. *)
Theorem has_credentials_raises_on_array_record :
  w_fs array_disk !! ENCRYPTION_KEY_FILE = Some (Regular key_a true)
  ∧ w_fs array_disk !! TOLINO_CREDENTIALS_FILE
    = Some (Regular (fernet_seal key_a 0 [] (list_byte_of_string "[]")) true)
  ∧ json_loads "[]" = Returns (PyList [])
  ∧ fst (TolinoUploader array_disk) = Returns tt
  ∧ _credentials (fst (snd (TolinoUploader array_disk))) = PyList []
  ∧ fst (has_credentials (snd (TolinoUploader array_disk))) = Raises AttributeError.
Proof. vm_compute. auto 10. Qed.

(** C8: whenever [save_credentials] returns false the record in memory is
    already the new pair, so for a non-empty pair [has_credentials] answers
    true; on a disk where nothing can be written this happens with no file
    on disk at all. *)
Theorem save_failure_leaves_new_record :
  (∀ (settings : Settings) (fernet : FernetLib) (codec : CodecLib)
     (username password : string) (s : uploader * world),
     fst (save_credentials username password s) = Returns false →
     _credentials (fst (snd (save_credentials username password s)))
     = credentials_record username password
     ∧ (username ≠ EmptyString → password ≠ EmptyString →
        has_credentials (snd (save_credentials username password s))
        = (Returns true, snd (save_credentials username password s))))
  ∧ (fst (save_credentials "reader@example.com" "Secr3t!" (snd (TolinoUploader locked_disk)))
     = Returns false
     ∧ w_fs (snd (snd (save_credentials "reader@example.com" "Secr3t!"
                         (snd (TolinoUploader locked_disk))))) = ∅
     ∧ fst (has_credentials (snd (save_credentials "reader@example.com" "Secr3t!"
                                    (snd (TolinoUploader locked_disk)))))
       = Returns true).
Proof.
  split.
  - intros settings fernet codec username password s.
    apply save_credentials_false_record.
  - vm_compute. auto.
Qed.

(** *** Counterexamples to the claims as first stated *)

(** C1 as stated fails: where the key file cannot be created the generated
    key lives in memory only; a save still returns true; the next process,
    over the same credentials file and with as little of a key file as the
    first, generates another key and reads nothing back. *)
Remark save_with_unpersisted_key_is_not_read_back :
  w_fs keyless_disk !! ENCRYPTION_KEY_FILE = None
  ∧ w_fs (snd (snd (TolinoUploader keyless_disk))) !! ENCRYPTION_KEY_FILE = None
  ∧ fst (save_credentials "reader@example.com" "Secr3t!" (snd (TolinoUploader keyless_disk)))
    = Returns true
  ∧ w_fs (snd (snd (save_credentials "reader@example.com" "Secr3t!"
                      (snd (TolinoUploader keyless_disk))))) !! ENCRYPTION_KEY_FILE = None
  ∧ _credentials (fst (snd (TolinoUploader
      (snd (snd (save_credentials "reader@example.com" "Secr3t!"
                   (snd (TolinoUploader keyless_disk)))))))) = PyDict ∅.
Proof. vm_compute. auto 10. Qed.

(** C2 as stated fails: on an uploader that holds a record, with the
    credentials file gone, [_load_credentials] does not answer "absent": the
    record stays, and [has_credentials] is true. *)
Lemma load_without_file_keeps_cached_record :
  w_fs (snd Scenes.forgotten) !! TOLINO_CREDENTIALS_FILE = None
  ∧ _credentials (fst Scenes.forgotten) = credentials_record "reader@example.com" "Secr3t!"
  ∧ _load_credentials Scenes.forgotten = (Returns tt, Scenes.forgotten)
  ∧ _credentials (fst (snd (_load_credentials Scenes.forgotten))) ≠ PyDict ∅
  ∧ fst (has_credentials (snd (_load_credentials Scenes.forgotten))) = Returns true.
Proof.
  assert (_load_credentials Scenes.forgotten = (Returns tt, Scenes.forgotten)) as Hrun
    by (vm_compute; reflexivity).
  rewrite Hrun. cbn [fst snd].
  split; [vm_compute; reflexivity|]. split; [vm_compute; reflexivity|].
  split; [reflexivity|]. split; [|vm_compute; reflexivity].
  intros Hempty. apply (f_equal truthy) in Hempty. vm_compute in Hempty. discriminate.
Qed.

(** C3 as stated fails: on a full disk with blocks of 4096 bytes, with
    credentials of an earlier save in place, a save whose token does not fit
    into the block that the old file gives back returns false, and the
    credentials file, opened and truncated before the write failed, holds a
    proper prefix of the new token; the earlier credentials, which loaded
    before, load no more. *)
Lemma save_on_full_disk_damages_credentials_file :
  _credentials (fst loaded_full) = credentials_record "a" "b"
  ∧ w_fs (snd loaded_full) !! TOLINO_CREDENTIALS_FILE
    = Some (Regular (token_of key_a "a" "b") true)
  ∧ w_free (snd loaded_full) = 0%nat
  ∧ w_block (snd loaded_full) = 4096%nat
  ∧ fst failed_save = Returns false
  ∧ (∃ n, (n < length (token_of key_a "reader@example.com" long_password))%nat
          ∧ w_fs (snd (snd failed_save)) !! TOLINO_CREDENTIALS_FILE
            = Some (Regular (take n (token_of key_a "reader@example.com" long_password)) true))
  ∧ w_fs (snd (snd failed_save)) !! TOLINO_CREDENTIALS_FILE
    ≠ w_fs (snd loaded_full) !! TOLINO_CREDENTIALS_FILE
  ∧ _credentials (fst (snd (TolinoUploader (snd (snd failed_save))))) = PyDict ∅.
Proof.
  split; [vm_compute; reflexivity|]. split; [vm_compute; reflexivity|].
  split; [vm_compute; reflexivity|]. split; [vm_compute; reflexivity|].
  split; [vm_compute; reflexivity|].
  split.
  { exists 4096%nat.
    split; [apply Nat.ltb_lt; vm_compute; reflexivity|]. vm_compute. reflexivity. }
  split; [|vm_compute; reflexivity].
  intros Heq.
  apply (f_equal (λ file, match file with
                          | Some (Regular content _) => Nat.eqb (length content) 4096
                          | _ => false
                          end)) in Heq.
  vm_compute in Heq. discriminate.
Qed.

(** C5 as stated fails: a save with an empty username returns true and
    [has_credentials] answers false right after it. *)
Lemma save_of_empty_username_gives_no_credentials :
  fst (save_credentials "" "Secr3t!" started) = Returns true
  ∧ fst (has_credentials (snd (save_credentials "" "Secr3t!" started))) = Returns false.
Proof. vm_compute. auto. Qed.

(** C6 as stated fails: a key file that exists and cannot be read is not
    loaded; the error is caught and logged, and the key stays unset, in
    [_load_encryption_key] and so in the constructor. *)
Lemma unreadable_key_file_is_not_loaded :
  fst (os_path_exists ENCRYPTION_KEY_FILE (blank, Scenes.unreadable_key_disk)) = Returns true
  ∧ w_fs Scenes.unreadable_key_disk !! ENCRYPTION_KEY_FILE = Some (Unreadable key_a false)
  ∧ _load_encryption_key (Uploader (PyDict ∅) None, Scenes.unreadable_key_disk)
    = (Returns tt,
       (Uploader (PyDict ∅) None,
        with_log Scenes.unreadable_key_disk
          [ErrorTrace "Error loading/generating encryption key" PermissionError]))
  ∧ _encryption_key (fst (snd (TolinoUploader Scenes.unreadable_key_disk))) = None.
Proof. vm_compute. auto. Qed.

(** *** The theorems at concrete inputs *)

Lemma save_then_fresh_load_witness :
  fst saved = Returns true
  ∧ _credentials (fst (snd (TolinoUploader (snd (snd saved)))))
    = credentials_record "reader@example.com" "Secr3t!".
Proof.
  split; [vm_compute; reflexivity|].
  refine (proj1 (proj2 (save_then_fresh_load "reader@example.com" "Secr3t!" started
                          key_a true (snd (snd saved))
                          (lawful_round_trips _ _ toy_lawful) _ _ _ _ _ _ eq_refl))).
  - discriminate.
  - discriminate.
  - vm_compute. reflexivity.
  - vm_compute. reflexivity.
  - vm_compute. reflexivity.
  - intros data wr'. vm_compute. discriminate.
Defined.

Lemma load_credentials_absent_witness :
  _load_credentials (Uploader (credentials_record "a" "b") (Some key_b), rotated_disk)
  = (Returns tt,
     (Uploader (PyDict ∅) (Some key_b),
      with_log rotated_disk [ErrorTrace "Error loading credentials" InvalidToken])).
Proof.
  refine (proj1 (proj2 (proj2 (proj2 (proj2
            (load_credentials_absent (Uploader (credentials_record "a" "b") (Some key_b))
               rotated_disk))))
            toy_key_separation key_a key_b 0%Z []
            (drop 32 (token_of key_a "reader@example.com" "Secr3t!")) true _ _ _ _) _).
  - reflexivity.
  - reflexivity.
  - vm_compute. discriminate.
  - vm_compute. reflexivity.
  - reflexivity.
Defined.

Lemma save_credentials_outcomes_witness :
  ∃ r, fst (save_credentials "reader@example.com" long_password loaded_full) = Returns r.
Proof.
  refine (proj1 (save_credentials_outcomes "reader@example.com" long_password loaded_full _)).
  vm_compute. discriminate.
Defined.

Lemma has_credentials_after_save_witness :
  has_credentials (snd saved) = (Returns true, snd saved).
Proof.
  refine (proj2 (proj2 has_credentials_before_and_after_save)
            "reader@example.com" "Secr3t!" started _ _ _).
  - discriminate.
  - discriminate.
  - vm_compute. reflexivity.
Defined.

Lemma load_encryption_key_reads_file_witness :
  _load_encryption_key (blank, keyed_disk)
  = (Returns tt, (Uploader (_credentials blank) (Some key_a), keyed_disk)).
Proof.
  refine (proj1 (proj1 (load_encryption_key_reads_file blank keyed_disk) key_a true _)).
  vm_compute. reflexivity.
Defined.

Lemma save_failure_leaves_new_record_witness :
  _credentials (fst (snd (save_credentials "reader@example.com" "Secr3t!"
                            (snd (TolinoUploader locked_disk)))))
  = credentials_record "reader@example.com" "Secr3t!".
Proof.
  refine (proj1 (proj1 save_failure_leaves_new_record Toy.settings Toy.fernet Toy.codec
                   "reader@example.com" "Secr3t!" (snd (TolinoUploader locked_disk)) _)).
  vm_compute. reflexivity.
Defined.

Lemma load_credentials_keeps_record_witness :
  _load_credentials (Uploader (credentials_record "a" "b") (Some key_a), empty_disk)
  = (Returns tt, (Uploader (credentials_record "a" "b") (Some key_a), empty_disk)).
Proof.
  refine (proj1 (load_credentials_keeps_record_without_file_or_key
                   (Uploader (credentials_record "a" "b") (Some key_a)) empty_disk) _).
  left. vm_compute. reflexivity.
Defined.

(** * Further properties *)

(** ** env.py *)

Lemma lower_char_cases (c : ascii) :
  Env.lower_char c = c
  ∨ ((65 ≤ nat_of_ascii c)%nat ∧ (nat_of_ascii c ≤ 90)%nat
     ∧ Env.lower_char c = ascii_of_nat (nat_of_ascii c + 32)).
Proof.
  unfold Env.lower_char.
  destruct (65 <=? nat_of_ascii c)%nat eqn:Hlo; [|by left].
  destruct (nat_of_ascii c <=? 90)%nat eqn:Hhi; [|by left].
  right. apply Nat.leb_le in Hlo, Hhi. auto.
Qed.

(** Which characters lower-case to a given lower-case letter or digit. *)
Lemma lower_char_preimage (c d : ascii) :
  Env.lower_char c = d →
  ((97 ≤ nat_of_ascii d)%nat ∧ (nat_of_ascii d ≤ 122)%nat
   ∨ (48 ≤ nat_of_ascii d)%nat ∧ (nat_of_ascii d ≤ 57)%nat) →
  c = d ∨ ((97 ≤ nat_of_ascii d)%nat ∧ c = ascii_of_nat (nat_of_ascii d - 32)).
Proof.
  intros Hlower Hrange.
  destruct (lower_char_cases c) as [Hsame | (Hlo & Hhi & Hup)].
  - left. congruence.
  - right. clear Hrange. rewrite Hlower in Hup. clear Hlower. subst d.
    rewrite nat_ascii_embedding by lia.
    split; [lia|].
    replace (nat_of_ascii c + 32 - 32)%nat with (nat_of_ascii c) by lia.
    symmetry. apply ascii_nat_embedding.
Qed.

Lemma lower_nil (s : string) : Env.lower s = EmptyString → s = EmptyString.
Proof. destruct s; [reflexivity|discriminate]. Qed.

Lemma lower_cons (s : string) (d : ascii) (rest : string) :
  Env.lower s = String d rest →
  ∃ c s', s = String c s' ∧ Env.lower_char c = d ∧ Env.lower s' = rest.
Proof.
  destruct s as [|c s']; [discriminate|].
  cbn [Env.lower]. intros [= Hc Hs]. eauto.
Qed.

Ltac invert_lower H :=
  repeat match type of H with
         | Env.lower _ = String _ _ =>
             let c := fresh "c" in
             let Hc := fresh "Hc" in
             let Hb := fresh "Hb" in
             apply lower_cons in H as (c & ? & -> & Hc & H);
             apply lower_char_preimage in Hc;
             [destruct Hc as [-> | [Hb ->]];
              [ | try (exfalso; vm_compute in Hb; lia); clear Hb]
             | vm_compute; lia]
         | Env.lower _ = EmptyString => apply lower_nil in H as ->
         end.

(** The spellings [string_to_bool] accepts are these twenty-seven and no
    others: every mix of upper and lower case of "true", "yes" and "y", and
    "1".  Nothing is trimmed: a string with a leading or a trailing space is
    never accepted. *)
Theorem string_to_bool_accepted_spellings (s : string) :
  (Env.string_to_bool s = true ↔
   s ∈ [ "true"; "truE"; "trUe"; "trUE"; "tRue"; "tRuE"; "tRUe"; "tRUE";
         "True"; "TruE"; "TrUe"; "TrUE"; "TRue"; "TRuE"; "TRUe"; "TRUE";
         "yes"; "yeS"; "yEs"; "yES"; "Yes"; "YeS"; "YEs"; "YES";
         "1"; "y"; "Y" ])
  ∧ Env.string_to_bool (String " " s) = false
  ∧ Env.string_to_bool (s ++ " ") = false.
Proof.
  assert (Env.string_to_bool s = true ↔
          s ∈ [ "true"; "truE"; "trUe"; "trUE"; "tRue"; "tRuE"; "tRUe"; "tRUE";
                "True"; "TruE"; "TrUe"; "TrUE"; "TRue"; "TRuE"; "TRUe"; "TRUE";
                "yes"; "yeS"; "yEs"; "yES"; "Yes"; "YeS"; "YEs"; "YES";
                "1"; "y"; "Y" ]) as Hset.
  { clear. split.
    - rewrite string_to_bool_true_iff.
      intros [H|[H|[H|H]]]; invert_lower H;
        apply (bool_decide_unpack _); vm_compute; exact I.
    - intros Hin. repeat (apply elem_of_cons in Hin as [-> | Hin]; [reflexivity|]).
      by apply elem_of_nil in Hin. }
  split; [exact Hset|].
  split.
  - destruct (Env.string_to_bool (String " " s)) eqn:Hb; [|reflexivity].
    apply string_to_bool_true_iff in Hb.
    destruct Hb as [H|[H|[H|H]]]; cbn [Env.lower] in H; discriminate H.
  - destruct (Env.string_to_bool (s ++ " ")) eqn:Hb; [|reflexivity].
    exfalso. apply string_to_bool_true_iff in Hb.
    assert (∀ t, Env.lower (t ++ " ") ≠ "true" ∧ Env.lower (t ++ " ") ≠ "yes"
                 ∧ Env.lower (t ++ " ") ≠ "1" ∧ Env.lower (t ++ " ") ≠ "y") as Hno.
    { clear. intros t.
      do 5 (destruct t as [|? t]; [repeat split; discriminate|]).
      repeat split; discriminate. }
    destruct (Hno s) as (? & ? & ? & ?). destruct Hb as [Hb|[Hb|[Hb|Hb]]]; contradiction.
Qed.

(** When [USING_TOR] is set to an accepted spelling, both proxies and the
    custom DNS are empty and DNS-over-HTTPS is off, whatever their own
    variables say; when [DEBUG] is set to one, the log level is "DEBUG"
    whatever [LOG_LEVEL] says. *)
Theorem tor_and_debug_override_settings
    (strip upper : string → string) (env : gmap string string) (v : string) :
  Env.string_to_bool v = true →
  (env !! "USING_TOR" = Some v →
   EnvFlags.HTTP_PROXY strip env = EmptyString
   ∧ EnvFlags.HTTPS_PROXY strip env = EmptyString
   ∧ EnvFlags._CUSTOM_DNS strip env = EmptyString
   ∧ EnvFlags.USE_DOH env = false)
  ∧ (env !! "DEBUG" = Some v → EnvFlags.LOG_LEVEL upper env = "DEBUG")
  ∧ (env !! "USING_TOR" = None →
     EnvFlags.HTTP_PROXY strip env = strip (default EmptyString (env !! "HTTP_PROXY"))
     ∧ EnvFlags.USE_DOH env = Env.string_to_bool (default "false" (env !! "USE_DOH")))
  ∧ (env !! "DEBUG" = None →
     EnvFlags.LOG_LEVEL upper env = upper (default "INFO" (env !! "LOG_LEVEL"))).
Proof.
  intros Hv.
  unfold EnvFlags.HTTP_PROXY, EnvFlags.HTTPS_PROXY, EnvFlags._CUSTOM_DNS, EnvFlags.USE_DOH,
         EnvFlags.LOG_LEVEL, EnvFlags.USING_TOR, Env.DEBUG, Env.getenv.
  split; [|split; [|split]]; intros Hset; rewrite Hset;
    cbn [default from_option id]; rewrite ?Hv; repeat split; reflexivity.
Qed.

(** ** The credential cache: frames, key generation, composition *)

Section CacheMore.
Context {settings : Settings} {fernet : FernetLib} {codec : CodecLib}.

(** [_load_credentials] reads: it never changes a file, the free space, the
    entropy, the clock or the key in memory; it appends at most one record to
    the log. *)
Theorem load_credentials_only_reads (s : uploader * world) :
  w_fs (snd (snd (_load_credentials s))) = w_fs (snd s)
  ∧ w_creatable (snd (snd (_load_credentials s))) = w_creatable (snd s)
  ∧ w_free (snd (snd (_load_credentials s))) = w_free (snd s)
  ∧ w_entropy (snd (snd (_load_credentials s))) = w_entropy (snd s)
  ∧ w_clock (snd (snd (_load_credentials s))) = w_clock (snd s)
  ∧ _encryption_key (fst (snd (_load_credentials s))) = _encryption_key (fst s)
  ∧ (w_log (snd (snd (_load_credentials s))) = w_log (snd s)
     ∨ ∃ entry, w_log (snd (snd (_load_credentials s))) = (w_log (snd s) ++ [entry])%list).
Proof.
  destruct s as [u w]. rewrite load_credentials_run. cbn [fst snd].
  destruct (bool_decide _ && _); [|auto 10].
  destruct (stored_record _ _); cbn; eauto 10.
Qed.

Lemma load_key_generated_and_written (u : uploader) (w : world) :
  w_fs w !! ENCRYPTION_KEY_FILE = None →
  ENCRYPTION_KEY_FILE ∈ w_creatable w →
  (32 ≤ length (w_entropy w))%nat →
  (length (urlsafe_b64encode (take 32 (w_entropy w))) ≤ w_free w)%nat →
  _load_encryption_key (u, w) =
  (Returns tt,
   (Uploader (_credentials u) (Some (urlsafe_b64encode (take 32 (w_entropy w)))),
    World (<[ENCRYPTION_KEY_FILE := Regular (urlsafe_b64encode (take 32 (w_entropy w))) true]>
             (w_fs w))
          (w_creatable w)
          (w_free w - allocated (w_block w) (length (urlsafe_b64encode (take 32 (w_entropy w)))))
          (w_block w)
          (drop 32 (w_entropy w)) (w_clock w)
          (w_log w ++ [Info "Generated new encryption key"]))).
Proof.
  intros Hnone Hcreate Hent Hroom.
  unfold _load_encryption_key, Fernet_generate_key, os_urandom. unfold_monad.
  rewrite Hnone. rewrite bool_decide_eq_false_2 by (intros [? ?]; discriminate).
  cbn [fst snd]. apply Nat.leb_le in Hent. rewrite Hent. cbn.
  unfold open_wb. cbn [fst snd w_fs w_creatable w_free with_entropy]. rewrite Hnone.
  rewrite bool_decide_eq_true_2 by exact Hcreate. cbn.
  rewrite (write_close_opened _ _ _ _ None) by apply lookup_insert_eq.
  cbn [w_free w_fs with_fs with_entropy].
  apply Nat.leb_le in Hroom. rewrite Hroom. cbn.
  rewrite insert_insert_eq. reflexivity.
Qed.

(** With no key file, [_load_encryption_key] draws 32 bytes and keeps the
    encoded key in memory whether or not it reaches the disk: where the file
    cannot be created nothing is written and the failure is logged; where it
    can and there is room, the file holds exactly the key; where the disk
    fills up, a prefix of it.  When fewer than 32 bytes of entropy are left,
    nothing changes but the log. *)
Theorem load_encryption_key_generates (u : uploader) (w : world) :
  w_fs w !! ENCRYPTION_KEY_FILE = None →
  ((32 ≤ length (w_entropy w))%nat →
   _encryption_key (fst (snd (_load_encryption_key (u, w))))
   = Some (urlsafe_b64encode (take 32 (w_entropy w)))
   ∧ w_entropy (snd (snd (_load_encryption_key (u, w)))) = drop 32 (w_entropy w)
   ∧ (ENCRYPTION_KEY_FILE ∉ w_creatable w →
      w_fs (snd (snd (_load_encryption_key (u, w)))) = w_fs w
      ∧ last (w_log (snd (snd (_load_encryption_key (u, w)))))
        = Some (ErrorTrace "Error loading/generating encryption key" PermissionError))
   ∧ (ENCRYPTION_KEY_FILE ∈ w_creatable w →
      (length (urlsafe_b64encode (take 32 (w_entropy w))) ≤ w_free w)%nat →
      w_fs (snd (snd (_load_encryption_key (u, w))))
      = <[ENCRYPTION_KEY_FILE := Regular (urlsafe_b64encode (take 32 (w_entropy w))) true]>
          (w_fs w)
      ∧ last (w_log (snd (snd (_load_encryption_key (u, w)))))
        = Some (Info "Generated new encryption key"))
   ∧ (ENCRYPTION_KEY_FILE ∈ w_creatable w →
      (w_free w < length (urlsafe_b64encode (take 32 (w_entropy w))))%nat →
      w_fs (snd (snd (_load_encryption_key (u, w))))
      = <[ENCRYPTION_KEY_FILE :=
            Regular (take (w_free w) (urlsafe_b64encode (take 32 (w_entropy w)))) true]>
          (w_fs w)
      ∧ last (w_log (snd (snd (_load_encryption_key (u, w)))))
        = Some (ErrorTrace "Error loading/generating encryption key" NoSpaceError)))
  ∧ ((length (w_entropy w) < 32)%nat →
     _load_encryption_key (u, w)
     = (Returns tt, (u, with_log w (w_log w ++
          [ErrorTrace "Error loading/generating encryption key" EntropyError])))).
Proof.
  intros Hnone.
  unfold _load_encryption_key, Fernet_generate_key, os_urandom. unfold_monad.
  rewrite Hnone. rewrite bool_decide_eq_false_2 by (intros [? ?]; discriminate).
  cbn [fst snd].
  split.
  - intros Hent. apply Nat.leb_le in Hent. rewrite Hent. cbn.
    unfold open_wb. cbn [fst snd w_fs w_creatable w_free with_entropy]. rewrite Hnone.
    destruct (bool_decide (ENCRYPTION_KEY_FILE ∈ w_creatable w)) eqn:Hcreate; cbn.
    + apply bool_decide_eq_true in Hcreate.
      rewrite (write_close_opened _ _ _ _ None) by apply lookup_insert_eq.
      cbn [w_free w_fs with_fs with_entropy].
      destruct (length (urlsafe_b64encode (take 32 (w_entropy w))) <=? w_free w)%nat
        eqn:Hspace; cbn.
      * apply Nat.leb_le in Hspace.
        split; [reflexivity|]. split; [reflexivity|].
        split; [intros Hnot; contradiction|].
        split; [|intros _ Hfull; lia].
        intros _ _. split; [apply insert_insert_eq|apply last_snoc].
      * apply Nat.leb_gt in Hspace.
        split; [reflexivity|]. split; [reflexivity|].
        split; [intros Hnot; contradiction|].
        split; [intros _ Hroom; lia|].
        intros _ _. split; [apply insert_insert_eq|apply last_snoc].
    + apply bool_decide_eq_false in Hcreate.
      split; [reflexivity|]. split; [reflexivity|].
      split; [intros _; split; [reflexivity|apply last_snoc]|].
      split; intros Hin; contradiction.
  - intros Hent. apply Nat.leb_gt in Hent. rewrite Hent. reflexivity.
Qed.

(** A key that was generated and written is the key every later call loads,
    and loading it draws no entropy: the key is generated once. *)
Theorem generated_key_is_reused (u u' : uploader) (w : world) :
  w_fs w !! ENCRYPTION_KEY_FILE = None →
  ENCRYPTION_KEY_FILE ∈ w_creatable w →
  (32 ≤ length (w_entropy w))%nat →
  (length (urlsafe_b64encode (take 32 (w_entropy w))) ≤ w_free w)%nat →
  _encryption_key (fst (snd (_load_encryption_key (u', snd (snd (_load_encryption_key (u, w)))))))
  = _encryption_key (fst (snd (_load_encryption_key (u, w))))
  ∧ _encryption_key (fst (snd (_load_encryption_key (u, w))))
    = Some (urlsafe_b64encode (take 32 (w_entropy w)))
  ∧ snd (snd (_load_encryption_key (u', snd (snd (_load_encryption_key (u, w))))))
    = snd (snd (_load_encryption_key (u, w))).
Proof.
  intros Hnone Hcreate Hent Hroom.
  rewrite (load_key_generated_and_written u w Hnone Hcreate Hent Hroom).
  cbn [fst snd _encryption_key].
  rewrite (load_key_existing u' _ (urlsafe_b64encode (take 32 (w_entropy w))) true)
    by apply lookup_insert_eq.
  auto.
Qed.

Lemma load_credentials_keeps_key_and_files (u : uploader) (w : world) :
  _encryption_key (fst (snd (_load_credentials (u, w)))) = _encryption_key u
  ∧ w_fs (snd (snd (_load_credentials (u, w)))) = w_fs w.
Proof.
  rewrite load_credentials_run.
  destruct (bool_decide _ && _); [|auto].
  destruct (stored_record _ _); auto.
Qed.

Lemma after_key_step_with_key_file (u : uploader) (w : world) (k : bytes) (wr : bool) :
  w_fs w !! ENCRYPTION_KEY_FILE = Some (Regular k wr) →
  _encryption_key u = Some k ∨ bytes_truthy (_encryption_key u) = false →
  after_key_step (u, w) = (Uploader (_credentials u) (Some k), w).
Proof.
  intros Hfile Hkey. unfold after_key_step. cbn [fst].
  destruct (bytes_truthy (_encryption_key u)) eqn:Htruthy; cbn [negb].
  - destruct Hkey as [Hkey | ?]; [|discriminate].
    destruct u as [c key]. cbn in *. subst key. reflexivity.
  - rewrite (load_key_existing u w k wr Hfile). reflexivity.
Qed.

(** A key file that yields no usable key is never repaired.  If it can be
    read and its bytes are not a Fernet key, a fresh uploader takes those
    bytes as its key and has an empty record, and every [save_credentials] on
    it returns false, logs the [ValueError], changes no file and keeps the
    same key.  If it cannot be read, a fresh uploader has no key and an empty
    record, and every [save_credentials] on it returns false, logs the
    [TypeError] of [Fernet(None)], changes no file and still has no key.  In
    both cases the next save fails in the same way. *)
Theorem invalid_key_file_blocks_saving (w : world) :
  (∀ k wr,
     w_fs w !! ENCRYPTION_KEY_FILE = Some (Regular k wr) →
     fernet_key_valid k = false →
     (_encryption_key (fst (snd (TolinoUploader w))) = Some k
      ∧ _credentials (fst (snd (TolinoUploader w))) = PyDict ∅
      ∧ w_fs (snd (snd (TolinoUploader w))) = w_fs w)
     ∧ (∀ (u : uploader) (w1 : world) (username password : string),
          w_fs w1 = w_fs w →
          _encryption_key u = Some k ∨ bytes_truthy (_encryption_key u) = false →
          fst (save_credentials username password (u, w1)) = Returns false
          ∧ w_fs (snd (snd (save_credentials username password (u, w1)))) = w_fs w
          ∧ _encryption_key (fst (snd (save_credentials username password (u, w1)))) = Some k
          ∧ last (w_log (snd (snd (save_credentials username password (u, w1)))))
            = Some (ErrorTrace "Error saving credentials" ValueError)))
  ∧ (∀ content wr,
       w_fs w !! ENCRYPTION_KEY_FILE = Some (Unreadable content wr) →
       (_encryption_key (fst (snd (TolinoUploader w))) = None
        ∧ _credentials (fst (snd (TolinoUploader w))) = PyDict ∅
        ∧ w_fs (snd (snd (TolinoUploader w))) = w_fs w)
       ∧ (∀ (u : uploader) (w1 : world) (username password : string),
            w_fs w1 = w_fs w →
            _encryption_key u = None →
            fst (save_credentials username password (u, w1)) = Returns false
            ∧ w_fs (snd (snd (save_credentials username password (u, w1)))) = w_fs w
            ∧ _encryption_key (fst (snd (save_credentials username password (u, w1)))) = None
            ∧ last (w_log (snd (snd (save_credentials username password (u, w1)))))
              = Some (ErrorTrace "Error saving credentials" TypeError))).
Proof.
  split.
  - intros k wr Hfile Hbad. split.
    + rewrite TolinoUploader_run, (load_key_existing _ w k wr Hfile). cbn [snd _credentials].
      rewrite load_credentials_run. cbn [_encryption_key].
      destruct (bool_decide _ && _); [|auto].
      unfold stored_record.
      destruct (w_fs w !! TOLINO_CREDENTIALS_FILE) as [[|data wr'|data wr']|]; cbn; auto.
      rewrite Hbad. cbn. auto.
    + intros u w1 username password Hsame Hkey.
      rewrite <- Hsame in Hfile.
      rewrite save_credentials_split, (after_key_step_with_key_file u w1 k wr Hfile Hkey).
      rewrite write_credentials_run. unfold sealed_token. cbn [_encryption_key _credentials].
      rewrite Hbad. cbn. rewrite last_snoc. auto.
  - intros content wr Hfile. split.
    + rewrite TolinoUploader_run, (load_key_unreadable _ w content wr Hfile).
      cbn [snd]. rewrite load_credentials_run. cbn [_encryption_key bytes_truthy].
      rewrite andb_false_r. auto.
    + intros u w1 username password Hsame Hkey.
      rewrite <- Hsame in Hfile.
      rewrite save_credentials_split. unfold after_key_step. cbn [fst].
      rewrite Hkey. cbn [bytes_truthy negb].
      rewrite (load_key_unreadable u w1 content wr Hfile). cbn [snd].
      rewrite write_credentials_run. unfold sealed_token. rewrite Hkey.
      cbn. rewrite last_snoc. auto.
Qed.

(** [save_credentials] writes nowhere but to its two files: every other path
    is as before; and once a key is in memory it is kept, and the key file is
    not touched either. *)
Theorem save_credentials_writes_only_its_files
    (username password : string) (s : uploader * world) (p : path) :
  p ≠ TOLINO_CREDENTIALS_FILE →
  (p ≠ ENCRYPTION_KEY_FILE →
   w_fs (snd (snd (save_credentials username password s))) !! p = w_fs (snd s) !! p)
  ∧ (bytes_truthy (_encryption_key (fst s)) = true →
     w_fs (snd (snd (save_credentials username password s))) !! p = w_fs (snd s) !! p
     ∧ _encryption_key (fst (snd (save_credentials username password s)))
       = _encryption_key (fst s)).
Proof.
  intros Hcred.
  assert (w_fs (snd (snd (save_credentials username password s))) !! p
          = w_fs (snd (after_key_step s)) !! p) as Hwrite.
  { rewrite save_credentials_split. destruct (after_key_step s) as [u1 w1].
    destruct (write_credentials_cases username password u1 w1)
      as [(e & w' & -> & _ & Hfs & _)
         |[(token & e & w' & -> & _ & _ & Hfs & _)
          |[(token & room & w' & -> & _ & _ & _ & Hfs & _)
           |(token & room & w' & -> & _ & _ & _ & Hfs & _)]]];
      cbn [fst snd]; rewrite Hfs; rewrite ?lookup_insert_ne by auto; reflexivity. }
  split.
  - intros Hkey. rewrite Hwrite. by apply after_key_step_frame.
  - intros Htruthy. rewrite Hwrite, save_credentials_object.
    rewrite (after_key_step_truthy s Htruthy). auto.
Qed.

(** What a restart finds when the key file holds [k] and the credentials file
    a token sealed under [k]. *)
Lemma restart_reads_sealed_record
    (w : world) (k : bytes) (wr wr' : bool) (username password text : string)
    (plain : bytes) (now : Z) (iv : bytes) :
  LawfulLibs fernet codec →
  w_fs w !! ENCRYPTION_KEY_FILE = Some (Regular k wr) →
  w_fs w !! TOLINO_CREDENTIALS_FILE = Some (Regular (fernet_seal k now iv plain) wr') →
  fernet_key_valid k = true →
  json_dumps (credentials_record username password) = Returns text →
  utf8_encode text = Returns plain →
  fst (snd (TolinoUploader w)) = Uploader (credentials_record username password) (Some k).
Proof.
  intros Hlaws Hkey Hcred Hvalid Hdumps Hencode.
  rewrite TolinoUploader_run, (load_key_existing _ w k wr Hkey). cbn [snd _credentials].
  rewrite load_credentials_run. cbn [_encryption_key].
  rewrite Hcred. rewrite bool_decide_eq_true_2 by eauto.
  assert (bytes_truthy (Some k) = true) as ->.
  { destruct k; [|reflexivity]. rewrite fernet_empty_key in Hvalid. discriminate. }
  cbn [andb stored_record]. rewrite Hvalid, (fernet_open_seal _ _ _ _ Hvalid).
  rewrite (utf8_decode_encode _ _ Hencode), (json_loads_dumps _ _ _ Hdumps).
  reflexivity.
Qed.

(** First run, then restart: on a disk with no key file yet, where one can
    be created and there is entropy and room for it, a save that returns true
    on the freshly built uploader is read back by the next [TolinoUploader()]
    over the same files, provided it can read the credentials file; it also
    ends with the same key. *)
Theorem first_run_then_restart_round_trip
    (username password : string) (w w' : world) :
  LawfulLibs fernet codec →
  ENCRYPTION_KEY_FILE ≠ TOLINO_CREDENTIALS_FILE →
  w_fs w !! ENCRYPTION_KEY_FILE = None →
  ENCRYPTION_KEY_FILE ∈ w_creatable w →
  (32 ≤ length (w_entropy w))%nat →
  (length (urlsafe_b64encode (take 32 (w_entropy w))) ≤ w_free w)%nat →
  fst (save_credentials username password (snd (TolinoUploader w))) = Returns true →
  w_fs w' = w_fs (snd (snd (save_credentials username password (snd (TolinoUploader w))))) →
  (∀ data wr, w_fs w' !! TOLINO_CREDENTIALS_FILE ≠ Some (Unreadable data wr)) →
  _credentials (fst (snd (TolinoUploader w'))) = credentials_record username password
  ∧ _encryption_key (fst (snd (TolinoUploader w')))
    = _encryption_key (fst (snd (TolinoUploader w)))
  ∧ _encryption_key (fst (snd (TolinoUploader w')))
    = Some (urlsafe_b64encode (take 32 (w_entropy w))).
Proof.
  intros Hlaws Hpaths Hnone Hcreate Hent Hroom Hsaved Hsame Hreadable.
  set (k := urlsafe_b64encode (take 32 (w_entropy w))) in *.
  assert (∃ u0 w0, snd (TolinoUploader w) = (u0, w0)
                   ∧ _encryption_key u0 = Some k
                   ∧ w_fs w0 = <[ENCRYPTION_KEY_FILE := Regular k true]> (w_fs w))
    as (u0 & w0 & Hstart & Hkey0 & Hfs0).
  { rewrite TolinoUploader_run.
    rewrite (load_key_generated_and_written _ w Hnone Hcreate Hent Hroom). cbn [snd].
    match goal with |- context [_load_credentials (?u, ?w1)] =>
      destruct (load_credentials_keeps_key_and_files u w1) as [Hk Hf];
      destruct (_load_credentials (u, w1)) as [o [u0 w0]]
    end.
    cbn [fst snd _encryption_key w_fs] in *. eauto. }
  rewrite Hstart in *. cbn [fst] in *. rewrite Hkey0.
  assert (w_fs w0 !! ENCRYPTION_KEY_FILE = Some (Regular k true)) as Hkeyfile.
  { rewrite Hfs0. apply lookup_insert_eq. }
  rewrite save_credentials_split in Hsaved, Hsame.
  rewrite (after_key_step_with_key_file u0 w0 k true Hkeyfile (or_introl Hkey0))
    in Hsaved, Hsame.
  destruct (write_credentials_cases username password
              (Uploader (_credentials u0) (Some k)) w0)
    as [(e & w2 & Hrun & _)
       |[(token & e & w2 & Hrun & _)
        |[(token & room & w2 & Hrun & _)
         |(token & room & w2 & Hrun & Hsealed & _ & _ & Hfs & _)]]];
    rewrite Hrun in *; cbn [fst snd _encryption_key] in *; try discriminate.
  apply sealed_token_returns in Hsealed as (k' & text & plain & Hk & Hv & Hd & He & ->).
  assert (k' = k) as -> by congruence.
  assert (fst (snd (TolinoUploader w')) = Uploader (credentials_record username password) (Some k))
    as ->; [|auto].
  assert (w_fs w' !! TOLINO_CREDENTIALS_FILE
          = Some (rewritten (w_fs w0 !! TOLINO_CREDENTIALS_FILE)
                    (fernet_seal k (w_clock w0) (take 16 (w_entropy w0)) plain))) as Hcred.
  { rewrite Hsame, Hfs. apply lookup_insert_eq. }
  assert (w_fs w' !! TOLINO_CREDENTIALS_FILE
          = Some (Regular (fernet_seal k (w_clock w0) (take 16 (w_entropy w0)) plain) true))
    as Hregular.
  { rewrite Hcred. f_equal.
    destruct (w_fs w0 !! TOLINO_CREDENTIALS_FILE) as [[| |data wr]|]; try reflexivity.
    exfalso. exact (Hreadable _ _ Hcred). }
  eapply restart_reads_sealed_record; eauto.
  rewrite Hsame, Hfs, lookup_insert_ne by auto. exact Hkeyfile.
Qed.

End CacheMore.

(** The restart has to be able to read what the first run wrote: into a
    credentials file with write permission only, a save returns true, and the
    next [TolinoUploader()], with the same key, reads nothing back. *)
Remark save_to_write_only_file_is_not_read_back :
  fst (save_credentials "reader@example.com" "Secr3t!"
         (snd (TolinoUploader Scenes.write_only_disk))) = Returns true
  ∧ _encryption_key (fst (snd (TolinoUploader
      (snd (snd (save_credentials "reader@example.com" "Secr3t!"
                   (snd (TolinoUploader Scenes.write_only_disk)))))))) = Some key_a
  ∧ _credentials (fst (snd (TolinoUploader
      (snd (snd (save_credentials "reader@example.com" "Secr3t!"
                   (snd (TolinoUploader Scenes.write_only_disk)))))))) = PyDict ∅
  ∧ last (w_log (snd (snd (TolinoUploader
      (snd (snd (save_credentials "reader@example.com" "Secr3t!"
                   (snd (TolinoUploader Scenes.write_only_disk)))))))))
    = Some (ErrorTrace "Error loading credentials" PermissionError).
Proof. vm_compute. auto. Qed.

(** ** The upload workflow *)

Local Open Scope list_scope.

Lemma returns_ret {A} (a : A) : always_returns (mret a).
Proof. intros st. eauto. Qed.

Lemma returns_bind {A B} (m : Async A) (k : A → Async B) :
  always_returns m → (∀ a, always_returns (k a)) → always_returns (m ≫= k).
Proof.
  intros Hm Hk st. destruct (Hm st) as (a & st' & Hrun).
  destruct (Hk a st') as (b & st'' & Hrun').
  exists b, st''. unfold mbind, Async_bind. rewrite Hrun. exact Hrun'.
Qed.

Lemma returns_try_except {A} (body : Async A) (handler : pyexn → Async A) :
  (∀ e, always_returns (handler e)) → always_returns (try_except_async body handler).
Proof.
  intros Hh st. unfold try_except_async.
  destruct (body st) as [[a|e] st']; [eauto|]. apply Hh.
Qed.

Lemma returns_try_finally {A} (body : Async A) (cleanup : Async unit) :
  always_returns body → always_returns cleanup → always_returns (try_finally body cleanup).
Proof.
  intros Hb Hc st. unfold try_finally.
  destruct (Hb st) as (a & st' & ->). destruct (Hc st') as ([] & st'' & ->). eauto.
Qed.

Lemma returns_journal (entry : journal_entry) : always_returns (journal entry).
Proof. intros st. unfold journal. eauto. Qed.

Lemma returns_journal_then {A} (entry : journal_entry) (a : A) :
  always_returns (journal entry;; mret a).
Proof. apply returns_bind; [apply returns_journal|intros _; apply returns_ret]. Qed.

Lemma close_browser_returns : always_returns _close_browser.
Proof. apply returns_try_except. intros e. apply returns_journal. Qed.

Lemma cache_exists_returns (p : path) : always_returns (cache (os_path_exists p)).
Proof. intros st. unfold cache, os_path_exists. cbn. eauto. Qed.

Lemma upload_book_returns (book_path : string) : always_returns (upload_book book_path).
Proof.
  unfold upload_book.
  apply returns_bind; [apply cache_exists_returns|].
  intros found. destruct (negb found).
  - apply returns_journal_then.
  - apply returns_try_finally; [|apply close_browser_returns].
    apply returns_try_except. intros e. apply returns_journal_then.
Qed.

(** [upload_book] never raises and always returns a boolean, whatever the
    browser does and whatever the record in memory is: every exception of a
    browser step and the [AttributeError] of [has_credentials] on a record
    that is no dict are caught on the way.  The same holds for
    [_close_browser] and for the module's [upload_book_to_tolino].  Which
    boolean is returned is another matter: a timeout on the upload button is
    answered by the menu, and an exception of [close()] is swallowed, so
    neither makes the result false.  The exceptions meant are those of
    [pyexn], all of them subclasses of [Exception]; the cancellation of the
    task, which [except Exception] does not catch, is not modelled. *)
Theorem upload_book_never_raises (book_path : string) (st : machine) :
  (∃ (r : bool) (st' : machine), upload_book book_path st = (Done r, st'))
  ∧ (∃ (r : bool) (st' : machine), upload_book_to_tolino book_path st = (Done r, st'))
  ∧ (∃ st' : machine, _close_browser st = (Done tt, st')).
Proof.
  split; [apply upload_book_returns|].
  split; [apply upload_book_returns|].
  destruct (close_browser_returns st) as ([] & st' & Hrun). eauto.
Qed.

Ltac unfold_async :=
  unfold mbind, Async_bind, mret, Async_ret, try_except_async, try_finally, fail,
         pw, journal, get_handles, set_handles, subscript, advanced in *;
  cbn [fst snd m_uploader m_handles m_world m_browser m_journal b_responds b_trace
       _browser _context _page] in *.

Ltac tidy_lists :=
  repeat rewrite <- app_assoc; cbn [app]; rewrite ?app_nil_r.

(** How [_init_browser] ends: at the first action the browser refuses, with
    the handles obtained so far and the exception raised again, or with all
    three handles set. *)
Lemma init_browser_cases (st : machine) :
  let R := b_responds (m_browser st) in
  let T := b_trace (m_browser st) in
  let h := m_handles st in
  (∃ e, R T Start = Some e
        ∧ _init_browser st
          = (Failed e, advanced st [Start] h [JErrorTrace "Error initializing browser" e]))
  ∨ (∃ e, R (T ++ [Start]) Launch = Some e
          ∧ _init_browser st
            = (Failed e, advanced st [Start; Launch] h
                           [JErrorTrace "Error initializing browser" e]))
  ∨ (∃ e, R (T ++ [Start; Launch]) NewContext = Some e
          ∧ _init_browser st
            = (Failed e, advanced st [Start; Launch; NewContext]
                           (Handles true (_context h) (_page h))
                           [JErrorTrace "Error initializing browser" e]))
  ∨ (∃ e, R (T ++ [Start; Launch; NewContext]) NewPage = Some e
          ∧ _init_browser st
            = (Failed e, advanced st [Start; Launch; NewContext; NewPage]
                           (Handles true true (_page h))
                           [JErrorTrace "Error initializing browser" e]))
  ∨ (R T Start = None
     ∧ R (T ++ [Start]) Launch = None
     ∧ R (T ++ [Start; Launch]) NewContext = None
     ∧ R (T ++ [Start; Launch; NewContext]) NewPage = None
     ∧ _init_browser st
       = (Done tt, advanced st [Start; Launch; NewContext; NewPage] (Handles true true true)
                     [JInfo "Browser initialized for Tolino upload"])).
Proof.
  destruct st as [u h w [R T] j]. cbn [m_browser m_handles b_responds b_trace].
  unfold _init_browser. unfold_async.
  destruct (R T Start) as [e|] eqn:H1; cbn.
  { left. eauto. }
  right. destruct (R (T ++ [Start]) Launch) as [e|] eqn:H2; cbn; tidy_lists.
  { left. eauto. }
  right. destruct (R (T ++ [Start; Launch]) NewContext) as [e|] eqn:H3; cbn; tidy_lists.
  { left. eauto. }
  right. destruct (R (T ++ [Start; Launch; NewContext]) NewPage) as [e|] eqn:H4;
    cbn; tidy_lists.
  { left. eauto. }
  right. auto.
Qed.

Ltac ask_browser :=
  match goal with
  | |- context [match ?R ?T ?a with Some _ => _ | None => _ end] =>
      is_var R; destruct (R T a) as [?e|] eqn:?; cbn; tidy_lists
  end.

Ltac split_flag :=
  match goal with
  | |- context [if ?b then _ else _] => is_var b; destruct b; cbn
  end.

(** Closes a branch in which the run has already turned out False. *)
Ltac ends_false :=
  solve [repeat first [ask_browser | split_flag];
         let Hrun := fresh "Hrun" in intros Hrun; discriminate Hrun].

(** Closes a branch in which only lifecycle actions were attempted. *)
Ltac ends_lifecycle :=
  solve [repeat first [ask_browser | split_flag];
         eexists; (split; [reflexivity|]); repeat constructor].

(** The login sequence and the three ways past the upload button. *)
Lemma login_only_with_credentials (u : uploader) (w : world) :
  fst (has_credentials (u, w)) = Returns true →
  ∃ d username password,
    _credentials u = PyDict d
    ∧ d !! "username" = Some username ∧ d !! "password" = Some password
    ∧ truthy username = true ∧ truthy password = true.
Proof.
  rewrite has_credentials_run. cbn [fst].
  destruct (_credentials u) as [| | | | | |d]; try discriminate.
  intros [= Hboth]. apply andb_true_iff in Hboth as [Hu Hp].
  destruct (d !! "username") as [username|] eqn:Eu; [|discriminate].
  destruct (d !! "password") as [password|] eqn:Ep; [|discriminate].
  eauto 10.
Qed.

(** What a run of [upload_book] that returned True went through. *)
Lemma upload_book_true_run (book_path : string) (st st' : machine) :
  upload_book book_path st = (Done true, st') →
  ∃ d username password middle,
    is_Some (w_fs (m_world st) !! book_path)
    ∧ _credentials (m_uploader st) = PyDict d
    ∧ d !! "username" = Some username ∧ d !! "password" = Some password
    ∧ truthy username = true ∧ truthy password = true
    ∧ (middle = [ClickElement UPLOAD_BUTTON]
       ∨ middle = [WaitForSelector MENU_BUTTON 5000; ClickElement MENU_BUTTON;
                   WaitForSelector UPLOAD_OPTION 5000; ClickElement UPLOAD_OPTION]
       ∨ middle = [ClickElement UPLOAD_BUTTON;
                   WaitForSelector MENU_BUTTON 5000; ClickElement MENU_BUTTON;
                   WaitForSelector UPLOAD_OPTION 5000; ClickElement UPLOAD_OPTION])
    ∧ b_trace (m_browser st')
      = b_trace (m_browser st)
        ++ [Start; Launch; NewContext; NewPage;
            Goto READER_URL; WaitForSelector EMAIL_INPUT 30000;
            Fill EMAIL_INPUT username; Fill PASSWORD_INPUT password;
            Click SUBMIT_BUTTON; WaitForSelector LIBRARY_VIEW 30000;
            WaitForSelector UPLOAD_BUTTON 10000]
        ++ middle
        ++ [ExpectFileChooser; FileChooserValue; SetFiles book_path;
            WaitForSelector UPLOAD_SUCCESS 60000; Close]
    ∧ m_uploader st' = m_uploader st
    ∧ m_world st' = m_world st.
Proof.
  destruct st as [[record key] [hb hc hp] w [R T] j].
  cbn [m_browser m_handles m_uploader m_world b_responds b_trace _credentials].
  unfold upload_book, _init_browser, _login_to_tolino, _close_browser, cache, os_path_exists.
  unfold_async. cbn.
  destruct (bool_decide _) eqn:Hfound; cbn; [|ends_false].
  apply bool_decide_eq_true in Hfound.
  do 4 (ask_browser; [ends_false|]).
  rewrite has_credentials_run.
  pose proof (login_only_with_credentials (Uploader record key) w) as Hcreds.
  rewrite has_credentials_run in Hcreds. cbn [fst _credentials] in *.
  destruct record as [| | | | | |d]; cbn; try ends_false.
  destruct (truthy (default PyNone (d !! "username")) && truthy (default PyNone (d !! "password")))
    eqn:Hboth; cbn; [|ends_false].
  destruct (Hcreds eq_refl) as (d' & username & password & [= <-] & Hu & Hp & Htu & Htp).
  clear Hcreds.
  do 2 (ask_browser; [ends_false|]).
  rewrite Hu. cbn. ask_browser; [ends_false|].
  rewrite Hp. cbn. do 3 (ask_browser; [ends_false|]).
  intros Hrun. exists d, username, password.
  revert Hrun.
  ask_browser.
  - (* the upload button was not found: the menu *)
    do 4 (ask_browser; [ends_false|]).
    do 4 (ask_browser; [ends_false|]).
    ask_browser; intros [= <-];
      exists [WaitForSelector MENU_BUTTON 5000; ClickElement MENU_BUTTON;
              WaitForSelector UPLOAD_OPTION 5000; ClickElement UPLOAD_OPTION];
      cbn; tidy_lists; auto 12.
  - ask_browser.
    + (* the button was found but the click failed: the menu *)
      do 4 (ask_browser; [ends_false|]).
      do 4 (ask_browser; [ends_false|]).
      ask_browser; intros [= <-];
        exists [ClickElement UPLOAD_BUTTON;
                WaitForSelector MENU_BUTTON 5000; ClickElement MENU_BUTTON;
                WaitForSelector UPLOAD_OPTION 5000; ClickElement UPLOAD_OPTION];
        cbn; tidy_lists; auto 12.
    + do 4 (ask_browser; [ends_false|]).
      ask_browser; intros [= <-]; exists [ClickElement UPLOAD_BUTTON];
        cbn; tidy_lists; auto 12.
Qed.

(** [upload_book] returns True only after the whole script ran: the book
    exists, the record holds a non-empty username and password, the browser was
    started, the login form was filled with exactly those two values, the
    upload dialog was reached by the button or by the menu, the book's path was
    handed to the file chooser, the success marker was awaited, and [close()]
    was the last call made on the browser.  Whether that call succeeded is not
    part of the result: [_close_browser] swallows its exception, and true is
    returned all the same.  The cache and the files are as before. *)
Theorem upload_book_true_means_every_step (book_path : string) (st st' : machine) :
  upload_book book_path st = (Done true, st') →
  ∃ d username password middle,
    is_Some (w_fs (m_world st) !! book_path)
    ∧ _credentials (m_uploader st) = PyDict d
    ∧ d !! "username" = Some username ∧ d !! "password" = Some password
    ∧ truthy username = true ∧ truthy password = true
    ∧ (middle = [ClickElement UPLOAD_BUTTON]
       ∨ middle = [WaitForSelector MENU_BUTTON 5000; ClickElement MENU_BUTTON;
                   WaitForSelector UPLOAD_OPTION 5000; ClickElement UPLOAD_OPTION]
       ∨ middle = [ClickElement UPLOAD_BUTTON;
                   WaitForSelector MENU_BUTTON 5000; ClickElement MENU_BUTTON;
                   WaitForSelector UPLOAD_OPTION 5000; ClickElement UPLOAD_OPTION])
    ∧ b_trace (m_browser st')
      = b_trace (m_browser st)
        ++ [Start; Launch; NewContext; NewPage;
            Goto READER_URL; WaitForSelector EMAIL_INPUT 30000;
            Fill EMAIL_INPUT username; Fill PASSWORD_INPUT password;
            Click SUBMIT_BUTTON; WaitForSelector LIBRARY_VIEW 30000;
            WaitForSelector UPLOAD_BUTTON 10000]
        ++ middle
        ++ [ExpectFileChooser; FileChooserValue; SetFiles book_path;
            WaitForSelector UPLOAD_SUCCESS 60000; Close]
    ∧ m_uploader st' = m_uploader st
    ∧ m_world st' = m_world st.
Proof. apply upload_book_true_run. Qed.

(** *** Steps that keep a run within bounds *)

Section Keeping.
Context (P : action → Prop) (st0 : machine).

Lemma evolved_refl : evolved P st0 st0.
Proof.
  repeat split. exists []. split; [symmetry; apply app_nil_r|constructor].
Qed.

Lemma keeps_ret {A} (a : A) : keeps P st0 (mret a).
Proof. intros st H. exact H. Qed.

Lemma keeps_fail {A} (e : pyexn) : keeps P st0 (@fail A e).
Proof. intros st H. exact H. Qed.

Lemma keeps_bind {A B} (m : Async A) (k : A → Async B) :
  keeps P st0 m → (∀ a, keeps P st0 (k a)) → keeps P st0 (m ≫= k).
Proof.
  intros Hm Hk st H. specialize (Hm st H).
  unfold mbind, Async_bind. destruct (m st) as [[a|e] st1]; cbn in *; [|exact Hm].
  apply (Hk a st1 Hm).
Qed.

Lemma keeps_try_except {A} (body : Async A) (handler : pyexn → Async A) :
  keeps P st0 body → (∀ e, keeps P st0 (handler e)) →
  keeps P st0 (try_except_async body handler).
Proof.
  intros Hb Hh st H. specialize (Hb st H).
  unfold try_except_async. destruct (body st) as [[a|e] st1]; cbn in *; [exact Hb|].
  apply (Hh e st1 Hb).
Qed.

Lemma keeps_try_finally {A} (body : Async A) (cleanup : Async unit) :
  keeps P st0 body → keeps P st0 cleanup → keeps P st0 (try_finally body cleanup).
Proof.
  intros Hb Hc st H. specialize (Hb st H).
  unfold try_finally. destruct (body st) as [r st1]. cbn in Hb.
  specialize (Hc st1 Hb). destruct (cleanup st1) as [[[]|e] st2]; exact Hc.
Qed.

Lemma keeps_journal (entry : journal_entry) : keeps P st0 (journal entry).
Proof. intros st H. exact H. Qed.

Lemma keeps_get_handles : keeps P st0 get_handles.
Proof. intros st H. exact H. Qed.

Lemma keeps_set_handles (h : handles) : keeps P st0 (set_handles h).
Proof. intros st H. exact H. Qed.

Lemma keeps_pw (a : action) : P a → keeps P st0 (pw a).
Proof.
  intros Ha st (Hu & Hw & Hr & acts & Ht & Hacts).
  assert (evolved P st0
            (Machine (m_uploader st) (m_handles st) (m_world st)
               (Browser (b_responds (m_browser st)) (b_trace (m_browser st) ++ [a]))
               (m_journal st))) as Hnext.
  { repeat split; cbn; try assumption.
    exists (acts ++ [a]). split.
    - rewrite Ht. symmetry. apply app_assoc.
    - apply Forall_app. split; [assumption|]. constructor; [assumption|constructor]. }
  unfold pw. cbn. destruct (b_responds _ _ _); exact Hnext.
Qed.

Lemma keeps_exists (p : path) : keeps P st0 (cache (os_path_exists p)).
Proof.
  intros st H. unfold cache, os_path_exists. cbn.
  destruct st; exact H.
Qed.

(** What follows [self.has_credentials()] may rely on its answer. *)
Lemma keeps_has_credentials_bind {B} (k : bool → Async B) :
  (∀ b, fst (has_credentials (m_uploader st0, m_world st0)) = Returns b → keeps P st0 (k b)) →
  keeps P st0 (cache has_credentials ≫= k).
Proof.
  intros Hk st H. pose proof H as (Hu & Hw & _).
  unfold mbind, Async_bind, cache. rewrite has_credentials_run.
  specialize (Hk (truthy (default PyNone
                    (match _credentials (m_uploader st) with
                     | PyDict d => d !! "username" | _ => None end))
                  && truthy (default PyNone
                       (match _credentials (m_uploader st) with
                        | PyDict d => d !! "password" | _ => None end)))).
  rewrite has_credentials_run in Hk. rewrite <- Hu in Hk. cbn [fst] in Hk.
  destruct st as [u h w br j]. cbn [m_uploader m_world] in *.
  destruct (_credentials u); cbn; try exact H.
  apply Hk; [reflexivity|]. destruct u; exact H.
Qed.

(** What follows [self._credentials[key]] may rely on the value read. *)
Lemma keeps_subscript_bind {B} (key : string) (k : pyobj → Async B) :
  (∀ d v, _credentials (m_uploader st0) = PyDict d → d !! key = Some v → keeps P st0 (k v)) →
  keeps P st0 (subscript key ≫= k).
Proof.
  intros Hk st H. pose proof H as (Hu & _).
  unfold mbind, Async_bind, subscript. rewrite Hu.
  destruct (_credentials (m_uploader st0)) as [| | | | | |d] eqn:Hrecord; try exact H.
  destruct (d !! key) as [v|] eqn:Hv; [|exact H].
  apply (Hk d v eq_refl Hv st H).
Qed.

Lemma keeps_init_browser :
  P Start → P Launch → P NewContext → P NewPage → keeps P st0 _init_browser.
Proof.
  intros H1 H2 H3 H4. unfold _init_browser.
  apply keeps_try_except.
  - repeat first
      [ apply keeps_bind; [|intros ?]
      | apply keeps_pw; assumption
      | apply keeps_get_handles | apply keeps_set_handles | apply keeps_journal ].
  - intros e. apply keeps_bind; [apply keeps_journal|intros _; apply keeps_fail].
Qed.

Lemma keeps_close_browser : P Close → keeps P st0 _close_browser.
Proof.
  intros HP. unfold _close_browser.
  apply keeps_try_except; [|intros e; apply keeps_journal].
  apply keeps_bind; [apply keeps_get_handles|]. intros h.
  destruct (_browser h); [|apply keeps_ret].
  repeat first
    [ apply keeps_bind; [|intros ?]
    | apply keeps_pw; assumption
    | apply keeps_set_handles | apply keeps_journal ].
Qed.

End Keeping.

Ltac keep_within :=
  repeat lazymatch goal with
         | |- keeps _ _ (mret _) => apply keeps_ret
         | |- keeps _ _ (fail _) => apply keeps_fail
         | |- keeps _ _ (journal _) => apply keeps_journal
         | |- keeps _ _ get_handles => apply keeps_get_handles
         | |- keeps _ _ (set_handles _) => apply keeps_set_handles
         | |- keeps _ _ (cache (os_path_exists _)) => apply keeps_exists
         | |- keeps _ _ _init_browser => apply keeps_init_browser
         | |- keeps _ _ _close_browser => apply keeps_close_browser
         | |- keeps _ _ (pw _) => apply keeps_pw
         | |- keeps _ _ (try_finally _ _) => apply keeps_try_finally
         | |- keeps _ _ (try_except_async _ _) => apply keeps_try_except
         | |- keeps _ _ (mbind _ (subscript _)) => apply keeps_subscript_bind; intros ? ? ? ?
         | |- keeps _ _ (mbind _ (cache has_credentials)) => fail
         | |- keeps _ _ (mbind _ _) => apply keeps_bind
         | |- keeps _ _ (if ?b then _ else _) => destruct b
         | |- ∀ _, keeps _ _ _ => intros ?
         end.

Lemma upload_book_within (book_path : string) (st : machine) :
  m_uploader (snd (upload_book book_path st)) = m_uploader st
  ∧ m_world (snd (upload_book book_path st)) = m_world st
  ∧ ∃ acts,
      b_trace (m_browser (snd (upload_book book_path st))) = b_trace (m_browser st) ++ acts
      ∧ ∀ a, a ∈ acts →
             match a with
             | Goto url => url = READER_URL
             | Fill selector value =>
                 ∃ d, _credentials (m_uploader st) = PyDict d
                      ∧ (selector = EMAIL_INPUT ∧ d !! "username" = Some value
                         ∨ selector = PASSWORD_INPUT ∧ d !! "password" = Some value)
             | SetFiles files => files = book_path
             | _ => True
             end.
Proof.
  set (P := λ a : action,
         match a with
         | Goto url => url = READER_URL
         | Fill selector value =>
             ∃ d, _credentials (m_uploader st) = PyDict d
                  ∧ (selector = EMAIL_INPUT ∧ d !! "username" = Some value
                     ∨ selector = PASSWORD_INPUT ∧ d !! "password" = Some value)
         | SetFiles files => files = book_path
         | _ => True
         end).
  assert (keeps P st (upload_book book_path)) as Hkeeps.
  { unfold upload_book, _login_to_tolino.
    apply keeps_bind; [apply keeps_exists|]. intros found.
    destruct (negb found); [keep_within|].
    apply keeps_try_finally; [|keep_within; exact I].
    apply keeps_try_except; [|keep_within].
    apply keeps_bind; [keep_within; exact I|]. intros _.
    apply keeps_bind; [keep_within|]. intros h.
    destruct (negb (_page h)); [keep_within|].
    apply keeps_bind.
    - apply keeps_bind; [keep_within|]. intros h'.
      destruct (negb (_page h')); [keep_within|].
      apply keeps_has_credentials_bind. intros b _.
      destruct (negb b); [keep_within|].
      keep_within; subst P; cbn; eauto 10.
    - intros login_success. destruct (negb login_success); [keep_within|].
      keep_within; subst P; cbn; eauto. }
  destruct (Hkeeps st (evolved_refl P st)) as (Hu & Hw & _ & acts & Htrace & Hacts).
  split; [exact Hu|]. split; [exact Hw|].
  exists acts. split; [exact Htrace|].
  intros a Ha. apply (proj1 (Forall_forall P acts) Hacts a Ha).
Qed.

(** Whatever happens, [upload_book] leaves the credential cache, the key and
    every file as they were; the only address it opens is the reader's; the
    only values it types are the stored username, into the e-mail field, and
    the stored password, into the password field; and the only file it hands
    to the browser is the book. *)
Theorem upload_book_discloses_only_to_the_form (book_path : string) (st : machine) :
  m_uploader (snd (upload_book book_path st)) = m_uploader st
  ∧ m_world (snd (upload_book book_path st)) = m_world st
  ∧ ∃ acts,
      b_trace (m_browser (snd (upload_book book_path st))) = b_trace (m_browser st) ++ acts
      ∧ ∀ a, a ∈ acts →
             match a with
             | Goto url => url = READER_URL
             | Fill selector value =>
                 ∃ d, _credentials (m_uploader st) = PyDict d
                      ∧ (selector = EMAIL_INPUT ∧ d !! "username" = Some value
                         ∨ selector = PASSWORD_INPUT ∧ d !! "password" = Some value)
             | SetFiles files => files = book_path
             | _ => True
             end.
Proof. apply upload_book_within. Qed.

(** The module's functions compose: whatever [save_tolino_credentials]
    returned, true or false, a following [upload_book_to_tolino] types
    nothing but the username and the password just given, each into its own
    field, opens no address but the reader's and hands over no file but the
    book. *)
Theorem upload_after_save_types_what_was_given
    {settings : Settings} {fernet : FernetLib} {codec : CodecLib}
    (username password book_path : string) (st : machine) :
  _credentials (m_uploader (snd (save_tolino_credentials username password st)))
  = credentials_record username password
  ∧ ∃ acts,
      b_trace (m_browser (snd (upload_book_to_tolino book_path
                                 (snd (save_tolino_credentials username password st)))))
      = b_trace (m_browser st) ++ acts
      ∧ ∀ a, a ∈ acts →
             match a with
             | Goto url => url = READER_URL
             | Fill selector value =>
                 selector = EMAIL_INPUT ∧ value = PyStr username
                 ∨ selector = PASSWORD_INPUT ∧ value = PyStr password
             | SetFiles files => files = book_path
             | _ => True
             end.
Proof.
  pose proof (save_credentials_object username password (m_uploader st, m_world st)) as Hobj.
  assert (m_browser (snd (save_tolino_credentials username password st)) = m_browser st
          ∧ m_uploader (snd (save_tolino_credentials username password st))
            = fst (snd (save_credentials username password (m_uploader st, m_world st))))
    as [Hbrowser Huploader].
  { unfold save_tolino_credentials, cache.
    destruct (save_credentials username password (m_uploader st, m_world st)) as [[r|e] [u w]];
      split; reflexivity. }
  rewrite Huploader, Hobj. split; [reflexivity|].
  unfold upload_book_to_tolino.
  destruct (upload_book_within book_path (snd (save_tolino_credentials username password st)))
    as (_ & _ & acts & Htrace & Hacts).
  rewrite Hbrowser in Htrace. exists acts. split; [exact Htrace|].
  intros a Ha. specialize (Hacts a Ha). destruct a; try exact Hacts.
  destruct Hacts as (d & Hd & Hfield). rewrite Huploader, Hobj in Hd.
  unfold credentials_record in Hd. injection Hd as <-.
  destruct Hfield as [[-> Hvalue]|[-> Hvalue]]; [left|right]; split; try reflexivity.
  - rewrite lookup_insert_eq in Hvalue. congruence.
  - rewrite lookup_insert_ne, lookup_insert_eq in Hvalue by discriminate. congruence.
Qed.

(** Without usable credentials [upload_book] returns False and never touches
    a page: the browser is at most started and closed again, nothing is
    opened, typed or clicked. *)
Theorem upload_without_credentials_stays_off_the_site (book_path : string) (st : machine) :
  fst (has_credentials (m_uploader st, m_world st)) ≠ Returns true →
  fst (upload_book book_path st) = Done false
  ∧ ∃ acts,
      b_trace (m_browser (snd (upload_book book_path st))) = b_trace (m_browser st) ++ acts
      ∧ Forall (λ a, lifecycle a = true) acts.
Proof.
  intros Hnone. split.
  - destruct (upload_book_returns book_path st) as ([|] & st' & Hrun);
      [|rewrite Hrun; reflexivity].
    exfalso. apply Hnone.
    destruct (upload_book_true_run book_path st st' Hrun)
      as (d & username & password & _ & _ & Hd & Hu & Hp & Htu & Htp & _).
    rewrite has_credentials_run, Hd, Hu, Hp. cbn. rewrite Htu, Htp. reflexivity.
  - destruct st as [[record key] [hb hc hp] w [R T] j].
    cbn [m_uploader m_world m_browser b_trace] in *.
    rewrite has_credentials_run in Hnone. cbn [fst _credentials] in Hnone.
    unfold upload_book, _init_browser, _login_to_tolino, _close_browser, cache, os_path_exists.
    unfold_async. cbn.
    destruct (bool_decide _); cbn;
      [|exists []; split; [symmetry; apply app_nil_r|constructor]].
    do 4 (ask_browser; [ends_lifecycle|]).
    rewrite has_credentials_run. cbn [_credentials].
    destruct record as [| | | | | |d]; cbn; try ends_lifecycle.
    destruct (truthy (default PyNone (d !! "username")) && truthy (default PyNone (d !! "password")));
      cbn; [congruence|ends_lifecycle].
Qed.

Lemma finally_close_browser {A} (body : Async A) (st : machine) :
  _browser (m_handles (snd (try_finally body _close_browser st))) = false
  ∨ ∃ e, last (b_trace (m_browser (snd (try_finally body _close_browser st)))) = Some Close
         ∧ last (m_journal (snd (try_finally body _close_browser st)))
           = Some (JErrorTrace "Error closing browser" e).
Proof.
  unfold try_finally.
  destruct (body st) as [r [u [hb hc hp] w [R T] j]].
  unfold _close_browser. unfold_async. cbn.
  destruct hb; cbn; [|by left].
  destruct (R T Close) as [e|]; cbn; [|by left].
  right. exists e. split; apply last_snoc.
Qed.

(** After [upload_book] on a book that exists the uploader holds no browser
    handle, unless the last thing it did was a [Close] that the browser
    refused, in which case the refusal is the last journal entry. *)
Theorem upload_book_closes_the_browser (book_path : string) (st : machine) :
  is_Some (w_fs (m_world st) !! book_path) →
  _browser (m_handles (snd (upload_book book_path st))) = false
  ∨ ∃ e, last (b_trace (m_browser (snd (upload_book book_path st)))) = Some Close
         ∧ last (m_journal (snd (upload_book book_path st)))
           = Some (JErrorTrace "Error closing browser" e).
Proof.
  intros Hfound.
  assert (∃ body : Async bool,
            upload_book book_path st = try_finally body _close_browser st) as [body ->].
  { destruct st as [[record key] h w br j]. cbn [m_world] in Hfound.
    unfold upload_book.
    unfold mbind at 1. unfold Async_bind, cache, os_path_exists.
    cbn [fst snd m_uploader m_world m_handles m_browser m_journal].
    rewrite bool_decide_eq_true_2 by exact Hfound. cbn [negb].
    eexists. reflexivity. }
  apply finally_close_browser.
Qed.

(** A book path at which nothing exists ends the call at once: the result is
    False, one error is journalled, and no browser action is attempted. *)
Theorem upload_book_missing_file (book_path : string) (st : machine) :
  w_fs (m_world st) !! book_path = None →
  upload_book book_path st =
  (Done false,
   Machine (m_uploader st) (m_handles st) (m_world st) (m_browser st)
     (m_journal st ++ [JError (String.append "Book file not found: " book_path)])).
Proof.
  intros Hnone. destruct st as [[record key] h w br j]. cbn [m_world] in Hnone.
  unfold upload_book.
  unfold mbind at 1. unfold Async_bind, cache, os_path_exists. cbn.
  destruct (bool_decide _) eqn:Hdec; [|reflexivity].
  apply bool_decide_eq_true in Hdec as [n Hn].
  pose proof (eq_trans (eq_sym Hnone) Hn) as Habsurd. discriminate Habsurd.
Qed.

(** *** The further theorems at concrete inputs *)

Import Scenes.

Lemma tor_and_debug_override_settings_witness :
  EnvFlags.HTTP_PROXY (λ s, s) {[ "USING_TOR" := "Yes"; "HTTP_PROXY" := "http://proxy:8080" ]}
  = EmptyString.
Proof.
  refine (proj1 (proj1 (tor_and_debug_override_settings (λ s, s) (λ s, s)
                          {[ "USING_TOR" := "Yes"; "HTTP_PROXY" := "http://proxy:8080" ]}
                          "Yes" _) _)).
  - vm_compute. reflexivity.
  - vm_compute. reflexivity.
Defined.

Lemma load_encryption_key_generates_witness :
  _encryption_key (fst (snd (_load_encryption_key (blank, keyless_disk))))
  = Some (urlsafe_b64encode (take 32 (w_entropy keyless_disk))).
Proof.
  refine (proj1 (proj1 (load_encryption_key_generates blank keyless_disk _) _)).
  - vm_compute. reflexivity.
  - vm_compute. lia.
Defined.

Lemma generated_key_is_reused_witness :
  _encryption_key (fst (snd (_load_encryption_key
                               (blank, snd (snd (_load_encryption_key (blank, empty_disk)))))))
  = _encryption_key (fst (snd (_load_encryption_key (blank, empty_disk)))).
Proof.
  refine (proj1 (generated_key_is_reused blank blank empty_disk _ _ _ _)).
  - vm_compute. reflexivity.
  - apply (bool_decide_unpack _). vm_compute. exact I.
  - vm_compute. lia.
  - vm_compute. lia.
Defined.

Lemma invalid_key_file_blocks_saving_witness :
  _credentials (fst (snd (TolinoUploader bad_key_disk))) = PyDict ∅.
Proof.
  refine (proj1 (proj2 (proj1 (proj1 (invalid_key_file_blocks_saving bad_key_disk)
                                 ["k"%byte; "e"%byte; "y"%byte] true _ _)))).
  - vm_compute. reflexivity.
  - vm_compute. reflexivity.
Defined.

Lemma save_credentials_writes_only_its_files_witness :
  w_fs (snd (snd (save_credentials "reader@example.com" "Secr3t!"
                    (snd (TolinoUploader shared_disk))))) !! other_file
  = w_fs (snd (snd (TolinoUploader shared_disk))) !! other_file.
Proof.
  refine (proj1 (save_credentials_writes_only_its_files "reader@example.com" "Secr3t!"
                   (snd (TolinoUploader shared_disk)) other_file _) _).
  - vm_compute. discriminate.
  - vm_compute. discriminate.
Defined.

Lemma first_run_then_restart_round_trip_witness :
  _credentials (fst (snd (TolinoUploader (snd (snd saved)))))
  = credentials_record "reader@example.com" "Secr3t!".
Proof.
  refine (proj1 (first_run_then_restart_round_trip "reader@example.com" "Secr3t!"
                   empty_disk (snd (snd saved)) toy_lawful _ _ _ _ _ _ eq_refl _)).
  - vm_compute. discriminate.
  - vm_compute. reflexivity.
  - apply (bool_decide_unpack _). vm_compute. exact I.
  - vm_compute. lia.
  - vm_compute. lia.
  - vm_compute. reflexivity.
  - intros data wr. vm_compute. discriminate.
Defined.

Lemma upload_book_true_means_every_step_witness :
  is_Some (w_fs (m_world (ready cooperative)) !! other_file).
Proof.
  destruct (upload_book_true_means_every_step other_file (ready cooperative)
              (snd (upload_book other_file (ready cooperative))))
    as (d & username & password & middle & Hfound & _).
  - vm_compute. reflexivity.
  - exact Hfound.
Defined.

Lemma upload_without_credentials_witness :
  fst (upload_book other_file (anonymous cooperative)) = Done false.
Proof.
  refine (proj1 (upload_without_credentials_stays_off_the_site other_file
                   (anonymous cooperative) _)).
  vm_compute. discriminate.
Defined.

Lemma upload_book_closes_the_browser_witness :
  _browser (m_handles (snd (upload_book other_file (ready without_button)))) = false
  ∨ ∃ e, last (b_trace (m_browser (snd (upload_book other_file (ready without_button)))))
         = Some Close
         ∧ last (m_journal (snd (upload_book other_file (ready without_button))))
           = Some (JErrorTrace "Error closing browser" e).
Proof.
  refine (upload_book_closes_the_browser other_file (ready without_button) _).
  apply (bool_decide_unpack _). vm_compute. exact I.
Defined.

Lemma upload_book_missing_file_witness :
  fst (upload_book "/nowhere.epub" (ready broken)) = Done false.
Proof.
  rewrite (upload_book_missing_file "/nowhere.epub" (ready broken)); [reflexivity|].
  vm_compute. reflexivity.
Defined.
